(** * budapest-market: the listing-URL collector and the detail-field extractor

    A shallow embedding of [Python/GetUrls.py] and [Python/ExtractDataFromUrl.py].

    - A Python [str] is a list of code points.
    - [re] is embedded as a backtracking matcher over the fragment of the
      pattern language the two scripts use; [search] is leftmost, its
      quantifiers greedy.
    - A parsed document ([BeautifulSoup]) is the record of the answers it
      gives to the queries the scripts make.
    - An exception is a [Raise] in the [result] monad; the bare [except:] of
      the scripts catches every one of them. *)

From Stdlib Require Import Ascii DecimalString.
From stdpp Require Import base numbers option list strings countable gmap.

Local Open Scope N_scope.

(** ** Strings *)

(** A code point, and a [str] as the sequence of its code points. *)
Abbreviation char := N (only parsing).
Abbreviation str := (list N) (only parsing).

(** Literals are written as UTF-8 text and decoded to code points. *)
Definition cont (b : N) : N := b - 128.

Fixpoint utf8_decode (bs : list N) : str :=
  match bs with
  | [] => []
  | b :: r =>
    if b <? 128 then b :: utf8_decode r
    else if b <? 224 then
      match r with
      | b1 :: r1 => ((b - 192) * 64 + cont b1) :: utf8_decode r1
      | _ => []
      end
    else if b <? 240 then
      match r with
      | b1 :: b2 :: r2 => ((b - 224) * 4096 + cont b1 * 64 + cont b2) :: utf8_decode r2
      | _ => []
      end
    else
      match r with
      | b1 :: b2 :: b3 :: r3 =>
        ((b - 240) * 262144 + cont b1 * 4096 + cont b2 * 64 + cont b3) :: utf8_decode r3
      | _ => []
      end
  end.

Definition py (s : string) : str :=
  utf8_decode (map (λ a, N.of_nat (Ascii.nat_of_ascii a)) (String.list_ascii_of_string s)).
Global Arguments py _%_string.

(** [len(old)] characters at the head of [s] are [old]. *)
Fixpoint startswith (old s : str) : bool :=
  match old, s with
  | [], _ => true
  | a :: old', b :: s' => (a =? b) && startswith old' s'
  | _ :: _, [] => false
  end.

(** [s.replace(old, new)]: every occurrence, left to right, without overlap.
    [skip] counts the characters of an occurrence still to be dropped. *)
Fixpoint replace_from (old new : str) (skip : nat) (s : str) : str :=
  match s with
  | [] => []
  | c :: s' =>
    match skip with
    | S n => replace_from old new n s'
    | O =>
      if startswith old s
      then new ++ replace_from old new (pred (length old)) s'
      else c :: replace_from old new O s'
    end
  end.

Definition replace (old new s : str) : str :=
  match old with
  | [] => new ++ flat_map (λ c, c :: new) s
  | _ => replace_from old new O s
  end.

(** [s.strip(chars)] for a single character. *)
Fixpoint lstrip (c : char) (s : str) : str :=
  match s with
  | x :: s' => if x =? c then lstrip c s' else s
  | [] => []
  end.

Definition strip (c : char) (s : str) : str := reverse (lstrip c (reverse (lstrip c s))).

Definition newline : str := [10].
Definition quote : str := [34].

(** [w in s]: the text [w] occurs in [s]. *)
Definition contains (w s : str) : Prop := ∃ a b, s = a ++ w ++ b.

(** [t] is the first element of [l] with the property [P]. *)
Definition first_with (P : str → Prop) (l : list str) (t : str) : Prop :=
  ∃ l1 l2, l = l1 ++ t :: l2 ∧ P t ∧ Forall (λ x, ¬ P x) l1.

(** [str(n)] for a non-negative integer. *)
Definition str_of_nat (n : nat) : str :=
  py (NilZero.string_of_uint (Nat.to_uint n)).

(** ** Character classes of [re] *)

(** What [\d] and [\s] accept on a [str] pattern is read from the
    interpreter's Unicode database.  Below U+0100 the answer is the same in
    every version of it: the decimal digits are [0-9], the whitespace is
    TAB..CR, FS..US, SPACE, NEL and NBSP.  Above, the tables are those of the
    database in use, and are left open. *)
Class UnicodeData := {
  decimal_above_latin1 : N → bool;
  space_above_latin1 : N → bool
}.

Definition ascii_digit (c : char) : bool := (48 <=? c) && (c <=? 57).

Definition latin1_space (c : char) : bool :=
  ((9 <=? c) && (c <=? 13)) || ((28 <=? c) && (c <=? 32)) || (c =? 133) || (c =? 160).

(** The tables that add nothing above U+00FF. *)
Definition latin1_only : UnicodeData :=
  {| decimal_above_latin1 := λ _, false; space_above_latin1 := λ _, false |}.

Section Regex.
Context `{UnicodeData}.

Definition is_decimal (c : char) : bool :=
  if c <? 256 then ascii_digit c else decimal_above_latin1 c.

Definition is_space (c : char) : bool :=
  if c <? 256 then latin1_space c else space_above_latin1 c.

(** One-character items of a pattern. *)
Inductive cclass :=
  | Lit (c : char)          (* the character itself *)
  | Dot                     (* [.]: anything but a newline *)
  | Digit                   (* [\d] *)
  | Space                   (* [\s] *)
  | Range (lo hi : char).   (* [[lo-hi]] *)

Definition accepts (cl : cclass) (c : char) : bool :=
  match cl with
  | Lit a => c =? a
  | Dot => negb (c =? 10)
  | Digit => is_decimal c
  | Space => is_space c
  | Range lo hi => (lo <=? c) && (c <=? hi)
  end.

(** The patterns of the two scripts: one-character items, the greedy
    quantifiers [?], [*] and [+] on such an item, numbered capturing groups,
    the anchor [^] and concatenation. *)
Inductive regex :=
  | Eps
  | One (cl : cclass)
  | Opt (cl : cclass)
  | Star (cl : cclass)
  | Plus (cl : cclass)
  | Bol
  | Group (n : nat) (r : regex)
  | Seq (r1 r2 : regex).

(** A match object: where the match starts and ends, and the text of the
    groups that took part in it. *)
Record match_obj := Match {
  m_start : nat;
  m_end : nat;
  m_groups : list (nat * str)
}.

(** [m.group(n)]; [None] for a group that took no part in the match. *)
Fixpoint assoc (n : nat) (gs : list (nat * str)) : option str :=
  match gs with
  | [] => None
  | (k, v) :: gs' => if decide (k = n) then Some v else assoc n gs'
  end.

Definition group (n : nat) (m : match_obj) : option str := assoc n (m_groups m).

(** The state of the matcher is the offset [i] reached in the subject, the
    text [s] that remains from there and the groups closed so far; a
    continuation receives it, and a [None] from it makes the matcher
    backtrack. *)
Definition cont_t := nat → str → list (nat * str) → option match_obj.

(** Zero or more characters of [cl], the longest run first. *)
Fixpoint greedy (cl : cclass) (i : nat) (s : str) (k : nat → str → option match_obj)
  : option match_obj :=
  match s with
  | c :: s' =>
    if accepts cl c then
      match greedy cl (S i) s' k with
      | Some m => Some m
      | None => k i s
      end
    else k i s
  | [] => k i s
  end.

Fixpoint rmatch (r : regex) (i : nat) (s : str) (g : list (nat * str)) (k : cont_t)
  : option match_obj :=
  match r with
  | Eps => k i s g
  | One cl =>
    match s with
    | c :: s' => if accepts cl c then k (S i) s' g else None
    | [] => None
    end
  | Opt cl =>
    match s with
    | c :: s' =>
      if accepts cl c then
        match k (S i) s' g with
        | Some m => Some m
        | None => k i s g
        end
      else k i s g
    | [] => k i s g
    end
  | Star cl => greedy cl i s (λ j t, k j t g)
  | Plus cl =>
    match s with
    | c :: s' => if accepts cl c then greedy cl (S i) s' (λ j t, k j t g) else None
    | [] => None
    end
  | Bol => if decide (i = O) then k i s g else None
  | Group n r1 =>
    rmatch r1 i s g (λ j t g', k j t ((n, take (j - i)%nat s) :: g'))
  | Seq r1 r2 =>
    rmatch r1 i s g (λ j t g', rmatch r2 j t g' k)
  end.

(** An attempt at offset [i], where [s] is what remains of the subject. *)
Definition match_here (r : regex) (i : nat) (s : str) : option match_obj :=
  rmatch r i s [] (λ j _ g, Some (Match i j g)).

(** [pattern.search(s)]: the attempt at the leftmost offset that succeeds. *)
Fixpoint search_from (r : regex) (i : nat) (s : str) : option match_obj :=
  match match_here r i s with
  | Some m => Some m
  | None =>
    match s with
    | [] => None
    | _ :: s' => search_from r (S i) s'
    end
  end.

Definition search (r : regex) (s : str) : option match_obj := search_from r O s.

(** *** What a pattern denotes

    [denotes r i w gs]: read at offset [i] of the subject, the pattern [r]
    can consume exactly the text [w], closing the groups [gs] (the last
    closed first).  The matcher is proved sound and complete for it below. *)
Fixpoint denotes (r : regex) (i : nat) (w : str) (gs : list (nat * str)) : Prop :=
  match r with
  | Eps => w = [] ∧ gs = []
  | One cl => (∃ c, w = [c] ∧ accepts cl c = true) ∧ gs = []
  | Opt cl => (w = [] ∨ ∃ c, w = [c] ∧ accepts cl c = true) ∧ gs = []
  | Star cl => Forall (λ c, accepts cl c = true) w ∧ gs = []
  | Plus cl => w ≠ [] ∧ Forall (λ c, accepts cl c = true) w ∧ gs = []
  | Bol => w = [] ∧ i = O ∧ gs = []
  | Group n r1 => ∃ gs', denotes r1 i w gs' ∧ gs = (n, w) :: gs'
  | Seq r1 r2 =>
    ∃ w1 w2 g1 g2, w = w1 ++ w2 ∧ denotes r1 i w1 g1
      ∧ denotes r2 (i + length w1)%nat w2 g2 ∧ gs = g2 ++ g1
  end.

(** The numbers of the groups of a pattern, the last closed first. *)
Fixpoint closing (r : regex) : list nat :=
  match r with
  | Group n r1 => n :: closing r1
  | Seq r1 r2 => closing r2 ++ closing r1
  | _ => []
  end.

End Regex.

(** Patterns are written as the list of their parts; [lit] is literal text. *)
Definition cat (rs : list regex) : regex := foldr Seq Eps rs.
Definition word (w : str) : regex := foldr (λ c r, Seq (One (Lit c)) r) Eps w.
Definition lit (w : string) : regex := word (py w).
Global Arguments lit _%_string.
Definition ch (a : Ascii.ascii) : char := N.of_nat (Ascii.nat_of_ascii a).
Global Arguments ch _%_char.

(** ** Exceptions and values *)

Inductive exn :=
  | AttributeError    (* an attribute or method of [None] *)
  | TypeError         (* [None] where a string is expected *)
  | IndexError
  | KeyError
  | OtherError.       (* whatever fetching or parsing raises *)

Inductive result (A : Type) :=
  | Ok (a : A)
  | Raise (e : exn).
Global Arguments Ok {A} a.
Global Arguments Raise {A} e.

#[global] Instance result_ret : MRet result := λ A, Ok.
#[global] Instance result_bind : MBind result :=
  λ A B f m, match m with Ok a => f a | Raise e => Raise e end.

(** [o.attr] or [o.method()] on an [o] that may be [None]. *)
Definition deref {A} (o : option A) : result A :=
  match o with Some a => Ok a | None => Raise AttributeError end.

(** What a cell of a written row can hold. *)
Inductive value :=
  | VNone
  | VStr (s : str)
  | VInt (n : Z).

Definition of_option (o : option str) : value :=
  match o with Some s => VStr s | None => VNone end.

(** ** [ExtractDataFromUrl.py] *)

Module ExtractDataFromUrl.

(** *** The parsed document *)

(** A table cell as the extractor looks at it: [td.string], and
    [td.next_element.next_element.next_element.string], which is [None] when
    one of the three hops leaves the document (the next hop then raises). *)
Record Td := {
  td_string : option str;
  td_hops : option (option str)
}.

(** The document, by the queries of [ExtractDataFromUrl.py]. *)
Record Soup := {
  (* [soup.find_all('meta')]: the [content] attribute of each, if it has one *)
  metas : list (option str);
  (* [soup.find('title')] and its [.string] *)
  title_tag : option (option str);
  (* the text nodes, in document order: what [soup.find(text=...)] scans *)
  strings : list str;
  (* the elements with a [src] attribute: its value, and how the tag prints *)
  src_tags : list (str * str);
  (* [soup.find('b', class_="listing-id")] and its [.string] *)
  listing_tag : option (option str);
  (* [soup.find_all('td')] *)
  tds : list Td
}.

(** In a parsed document the text of the title is itself one of the text
    nodes that [soup.find(text=...)] scans. *)
Definition title_is_text (soup : Soup) : Prop :=
  ∀ t, title_tag soup = Some (Some t) → t ∈ strings soup.

Section Extractor.
Context `{UnicodeData}.

Definition matched (o : option match_obj) : bool :=
  match o with Some _ => true | None => false end.

(** [soup.find(text=pattern)]: the first text node the pattern is found in. *)
Definition find_text (r : regex) (soup : Soup) : option str :=
  List.find (λ t, matched (search r t)) (strings soup).

(** [pattern.search(x)] for an [x] that may be [None]. *)
Definition re_search (r : regex) (x : option str) : result (option match_obj) :=
  match x with
  | Some s => Ok (search r s)
  | None => Raise TypeError
  end.

(** [m.group(n)] for an [m] that may be [None]. *)
Definition group_of (n : nat) (m : option match_obj) : result (option str) :=
  m ← deref m; Ok (group n m).

(** *** The fields, in the order of the script *)

(* "(\d+\.\sker).let" *)
Definition district_regex : regex :=
  cat [Group 1 (cat [Plus Digit; lit "."; One Space; lit "ker"]); One Dot; lit "let"].

Definition district (meta : str) : value :=
  match search district_regex meta with
  | None => VStr []
  | Some m => of_option (group 1 m)
  end.

(* "\(([A-Z].+)\)" *)
Definition varos_regex : regex :=
  cat [lit "("; Group 1 (cat [One (Range (ch "A") (ch "Z")); Plus Dot]); lit ")"].

Definition varos (meta : str) : value :=
  match search varos_regex meta with
  | None => VStr []
  | Some m => of_option (group 1 m)
  end.

(* "(\d+,?\d+)" *)
Definition price_regex : regex :=
  Group 1 (cat [Plus Digit; Opt (Lit (ch ",")); Plus Digit]).

Definition price (node : option str) : result value :=
  m ← re_search price_regex node;
  g ← group_of 1 m;
  p ← deref g;
  let p := replace (py " Ft") [] p in
  g ← group_of 1 (search price_regex p);
  p ← deref g;
  Ok (VStr (replace (py ",") (py ".") p)).

(* "(\d+)" *)
Definition area_regex : regex := Group 1 (Plus Digit).

Definition area (node : option str) : result value :=
  m ← re_search area_regex node;
  g ← group_of 1 m;
  Ok (of_option g).

(* "^(\d+)" *)
Definition fullrooms_regex : regex := cat [Bol; Group 1 (Plus Digit)].

Definition fullrooms (rooms : option str) : result value :=
  m ← re_search fullrooms_regex rooms;
  match m with
  | None => Ok (VInt 0)
  | Some m => Ok (of_option (group 1 m))
  end.

(* "\+(\s?)(\d?).+fél" *)
Definition halfrooms_regex : regex :=
  cat [lit "+"; Group 1 (Opt Space); Group 2 (Opt Digit); Plus Dot; lit "fél"].

Definition halfrooms (rooms : option str) : result value :=
  m ← re_search halfrooms_regex rooms;
  match m with
  | None => Ok (VInt 0)
  | Some m =>
    if bool_decide (group 1 m = Some [])
    then Ok (VInt 1)
    else Ok (of_option (group 2 m))
  end.

(** [str(soup.find_all(src=pattern))]: the tags whose [src] the pattern is
    found in, printed as a list. *)
Fixpoint join (sep : str) (l : list str) : str :=
  match l with
  | [] => []
  | [x] => x
  | x :: l' => x ++ sep ++ join sep l'
  end.

Definition str_find_all_src (r : regex) (soup : Soup) : str :=
  py "[" ++ join (py ", ") (snd <$> filter (λ t, matched (search r (fst t)) = true) (src_tags soup))
    ++ py "]".

(* "(47\.\d+)," and "(19\.\d+)" *)
Definition lat_regex : regex := cat [Group 1 (cat [lit "47."; Plus Digit]); lit ","].
Definition long_regex : regex := Group 1 (cat [lit "19."; Plus Digit]).

Definition lat (coord : str) : result value :=
  g ← group_of 1 (search lat_regex coord); Ok (of_option g).
Definition long (coord : str) : result value :=
  g ← group_of 1 (search long_regex coord); Ok (of_option g).

(** *** The attribute table *)

Inductive attr :=
  | condition | floor | storeys | lift | ceiling | heating | aircon
  | bathtoil | orient | view | balcony | parking | garcess | utility.

#[global] Instance attr_eq_dec : EqDecision attr.
Proof. solve_decision. Defined.

(** The branches of the [if]/[elif] chain, in its order, and the label each
    one compares [td.string] with. *)
Definition chain : list attr :=
  [condition; floor; storeys; lift; ceiling; heating; aircon;
   bathtoil; orient; view; balcony; parking; garcess; utility].

Definition label (a : attr) : str :=
  match a with
  | condition => py "Ingatlan állapota"
  | floor => py "Emelet"
  | storeys => py "Épület szintjei"
  | lift => py "Lift"
  | ceiling => py "Belmagasság"
  | heating => py "Fűtés"
  | aircon => py "Légkondicionáló"
  | bathtoil => py "Fürdő és WC"
  | orient => py "Tájolás"
  | view => py "Kilátás"
  | balcony => py "Erkély"
  | parking => py "Parkolás"
  | garcess => py "Tetőtér"
  | utility => py "Komfort"
  end.

(** The fourteen variables the loop assigns. *)
Definition attrs := attr → value.
Definition no_attrs : attrs := λ _, VStr [].
Definition assign (a : attr) (v : value) (e : attrs) : attrs :=
  λ b, if decide (b = a) then v else e b.

(* "(\d+\.?\d+)" *)
Definition bal_regex : regex :=
  Group 1 (cat [Plus Digit; Opt (Lit (ch ".")); Plus Digit]).

(** The body of a branch: the value three hops away, and for the balcony
    the number in it. *)
Definition branch (a : attr) (td : Td) : result value :=
  v ← deref (td_hops td);
  match a with
  | balcony =>
    m ← re_search bal_regex v;
    match m with
    | None => Ok (VInt 0)
    | Some m => Ok (of_option (group 1 m))
    end
  | _ => Ok (of_option v)
  end.

(** One turn of [for td in soup.find_all('td')]. *)
Definition td_step (e : attrs) (td : Td) : result attrs :=
  match List.find (λ a, bool_decide (td_string td = Some (label a))) chain with
  | None => Ok e
  | Some a => v ← branch a td; Ok (assign a v e)
  end.

Fixpoint td_loop (e : attrs) (l : list Td) : result attrs :=
  match l with
  | [] => Ok e
  | td :: l' => e' ← td_step e td; td_loop e' l'
  end.

(** *** One detail page: the body of the [try] after the page is parsed *)

Definition extract (soup : Soup) : result (list value) :=
  (* meta *)
  tag ← from_option Ok (Raise IndexError) (metas soup !! 4%nat);
  meta ← from_option Ok (Raise KeyError) tag;
  let meta := replace newline [] meta in
  let district := district meta in
  let varos := varos meta in
  (* title *)
  title ← deref (title_tag soup);
  title ← deref title;
  let title := replace newline [] title in
  (* price *)
  price ← price (find_text (lit "Ft") soup);
  (* area *)
  area ← area (find_text (lit "m²") soup);
  (* rooms *)
  let rooms := find_text (lit "szoba") soup in
  fullrooms ← fullrooms rooms;
  halfrooms ← halfrooms rooms;
  (* coord *)
  let coord := str_find_all_src (lit "center") soup in
  lat ← lat coord;
  long ← long coord;
  (* listing *)
  listing ← deref (listing_tag soup);
  let listing := of_option listing in
  (* the attribute table *)
  e ← td_loop no_attrs (tds soup);
  Ok [listing; price; area; of_option rooms; fullrooms; halfrooms; district; varos;
      e condition; e floor; e storeys; e lift; e heating; e view; lat; long; e orient;
      e parking; e balcony; e aircon; e ceiling; e utility; e bathtoil; e garcess].

(** The place of each attribute in the row. *)
Definition column (a : attr) : nat :=
  match a with
  | condition => 8 | floor => 9 | storeys => 10 | lift => 11 | heating => 12
  | view => 13 | orient => 16 | parking => 17 | balcony => 18 | aircon => 19
  | ceiling => 20 | utility => 21 | bathtoil => 22 | garcess => 23
  end.

(** The same document with another [content] attribute in its fifth
    [meta] tag; an attribute is no text node, so nothing else changes. *)
Definition with_meta (content : str) (soup : Soup) : Soup :=
  {| metas := <[4%nat := Some content]> (metas soup); title_tag := title_tag soup;
     strings := strings soup; src_tags := src_tags soup;
     listing_tag := listing_tag soup; tds := tds soup |}.

(** The district pattern as the specification words it, "(\d+\.\s*ker).let",
    to compare with [district_regex]. *)
Definition district_regex_as_specified : regex :=
  cat [Group 1 (cat [Plus Digit; lit "."; Star Space; lit "ker"]); One Dot; lit "let"].

End Extractor.

(** *** The run: [for url in urls] *)

(** What the script prints. *)
Inductive event :=
  | Progress (url : str) (count : nat)   (* the url and the iteration *)
  | ErrorWith (url : str)                (* "Error with url: " *)
  | NumberOfErrors (n : nat).            (* "Number of errors: " *)

(** The output file as the rows written to it, the two counters and the
    console. *)
Record run := Run {
  out_file : list (list value);
  err_count : nat;
  count : nat;
  console : list event
}.

Definition start : run :=
  {| out_file := []; err_count := 0; count := 1; console := [] |}.

Definition print (e : event) (st : run) : run :=
  {| out_file := out_file st; err_count := err_count st; count := count st;
     console := console st ++ [e] |}.

(** The [except:] clause. *)
Definition handler (url : str) (st : run) : run :=
  let st := print (ErrorWith url) st in
  {| out_file := out_file st; err_count := S (err_count st); count := count st;
     console := console st |}.

(** [writer.writerows(values)] and [count = count + 1]. *)
Definition writerows (values : list (list value)) (st : run) : run :=
  {| out_file := out_file st ++ values; err_count := err_count st;
     count := S (count st); console := console st |}.

Section Run.
Context `{UnicodeData}.
(** The network and the parser: what fetching and parsing a url gives. *)
Variable web : str → result Soup.

(** One turn of the loop. *)
Definition iteration (st : run) (url : str) : run :=
  match web url with
  | Raise _ => handler url st
  | Ok soup =>
    let st := print (Progress (strip 10 url) (count st)) st in
    match extract soup with
    | Raise _ => handler url st
    | Ok row => writerows [row] st
    end
  end.

Definition main (urls : list str) : run :=
  let st := foldl iteration start urls in
  print (NumberOfErrors (err_count st)) st.

(** The body of the [try] raises on this url. *)
Definition raises (url : str) : bool :=
  match web url ≫= extract with
  | Raise _ => true
  | Ok _ => false
  end.

End Run.

End ExtractDataFromUrl.

(** ** [GetUrls.py] *)

Module GetUrls.

Definition query_url : str :=
  py "http://ingatlan.com/listar/elado+lakas+nem-berleti-jog+tegla-epitesu-lakas+budapest+v-vi-vii-ker".

Definition npages : nat := 199.

(** [query_url + '?page=' + str(page)] *)
Definition page_url (page : nat) : str := query_url ++ py "?page=" ++ str_of_nat page.

(** What the script prints. *)
Inductive event :=
  | Url (url : str)
  | ErrorWith (url : str)       (* "Error with url: " *)
  | ErrorCount (n : nat).       (* "Error count =" *)

Record run := Run {
  out_file : list (list str);
  err_count : nat;
  console : list event
}.

(** How the script ends: it runs to its last line, or an exception nothing
    catches stops it where it is. *)
Inductive outcome :=
  | Finished (st : run)
  | Uncaught (e : exn) (st : run).

Definition start : run := {| out_file := []; err_count := 0; console := [] |}.

Definition print (e : event) (st : run) : run :=
  {| out_file := out_file st; err_count := err_count st; console := console st ++ [e] |}.

(** The [except:] clause around fetching and parsing. *)
Definition handler (url : str) (st : run) : run :=
  let st := print (ErrorWith url) st in
  {| out_file := out_file st; err_count := S (err_count st); console := console st |}.

Definition writerow (row : list str) (st : run) : run :=
  {| out_file := out_file st ++ [row]; err_count := err_count st; console := console st |}.

Section Run.
Context `{UnicodeData}.
(** The network and the parser: for a url, the [href] of every anchor that
    [soup.find_all('a', class_='rowclick rowClickCSS', href=True)] selects. *)
Variable web : str → result (list str).

(* "/(\d+)#?" *)
Definition regex : regex := cat [lit "/"; Group 1 (Plus Digit); Opt (Lit (ch "#"))].

Definition site : str := py "http://ingatlan.com/".

(** ["http://ingatlan.com/" + regex.search(tag['href']).group(1)] *)
Definition href (tag_href : str) : result str :=
  m ← deref (search regex tag_href);
  match group 1 m with
  | Some id => Ok (site ++ id)
  | None => Raise TypeError
  end.

(** [for tag in tags_a]: the list of all urls. *)
Fixpoint href_list (tags_a : list str) : result (list str) :=
  match tags_a with
  | [] => Ok []
  | tag :: rest => h ← href tag; l ← href_list rest; Ok (h :: l)
  end.

(** [list(set(href_list))]: each url once, in the order the set gives. *)
Definition list_set (l : list str) : list str := elements (list_to_set l : gset (list N)).

(** The page's urls, as they are written. *)
Definition page_urls (tags_a : list str) : result (list str) :=
  l ← href_list tags_a; Ok (list_set l).

(** [for page in range(1, npages+1)], over the pages still to do. *)
Fixpoint pages (todo : list nat) (st : run) : outcome :=
  match todo with
  | [] => Finished st
  | page :: rest =>
    let url := page_url page in
    let st := print (Url url) st in
    match web url with
    | Raise _ => pages rest (handler url st)
    | Ok tags_a =>
      match page_urls tags_a with
      | Raise e => Uncaught e st
      | Ok l => pages rest (foldl (λ st h, writerow [h] st) st l)
      end
    end
  end.

(** The script for [n] pages; it runs with [n = npages]. *)
Definition collect (n : nat) : outcome :=
  match pages (seq 1 n) start with
  | Finished st => Finished (print (ErrorCount (err_count st)) st)
  | Uncaught e st => Uncaught e st
  end.

Definition main : outcome := collect npages.

(** The loop as the specification words it, to compare with [pages]: an
    [href] the pattern is not found in is handled like a failed fetch. *)
Fixpoint pages_as_specified (todo : list nat) (st : run) : run :=
  match todo with
  | [] => st
  | page :: rest =>
    let url := page_url page in
    let st := print (Url url) st in
    match web url ≫= page_urls with
    | Raise _ => pages_as_specified rest (handler url st)
    | Ok l => pages_as_specified rest (foldl (λ st h, writerow [h] st) st l)
    end
  end.

Definition collect_as_specified (n : nat) : outcome :=
  let st := pages_as_specified (seq 1 n) start in
  Finished (print (ErrorCount (err_count st)) st).

End Run.

End GetUrls.

(** ** Pages to run the scripts on *)

Module Fixtures.
Import ExtractDataFromUrl.

(** The cell [i] of the row an extraction returns. *)
Definition cell (i : nat) (r : result (list value)) : option value :=
  match r with Ok row => row !! i | Raise _ => None end.

(** The number of cells of that row. *)
Definition width (r : result (list value)) : option nat :=
  match r with Ok row => Some (length row) | Raise _ => None end.

(** An element with a [src], as [(src, how it prints)]. *)
Definition img (src : str) : str * str :=
  (src, py "<img src=" ++ quote ++ src ++ quote ++ py "/>").

(** A label cell of the attribute table followed by its value cell. *)
Definition table_row (name val : str) : list Td :=
  [ {| td_string := Some name; td_hops := Some (Some val) |};
    {| td_string := Some val; td_hops := Some None |} ].

(** A detail page with the given description, price, area and rooms texts. *)
Definition detail_page (description price_text area_text rooms_text : str) : Soup :=
  {| metas := [None; Some (py "width=device-width"); Some (py "ingatlan.com");
               Some (py "index, follow"); Some description];
     title_tag := Some (Some (py "Eladó téglalakás - Andrássy út"));
     strings := [py "Eladó téglalakás - Andrássy út"; py "Andrássy út"; price_text;
                 area_text; rooms_text; py "22334455"; py "Ingatlan állapota";
                 py "felújított"; py "Emelet"; py "3"; py "Erkély"; py "5.5 m²"];
     src_tags := [img (py "/images/logo.png");
                  img (py "https://maps.example/staticmap?center=47.5051,19.0631&zoom=15")];
     listing_tag := Some (Some (py "22334455"));
     tds := table_row (py "Ingatlan állapota") (py "felújított")
            ++ table_row (py "Emelet") (py "3")
            ++ table_row (py "Erkély") (py "5.5 m²") |}.

Definition description : str :=
  py "Eladó téglalakás, 6. kerület (Terézváros), Andrássy út".

Definition page_31_9 : Soup :=
  detail_page description (py "31,9 M Ft") (py "55 m²") (py "3 + 1 fél szoba").
Definition page_31900000 : Soup :=
  detail_page description (py "31 900 000 Ft") (py "55 m²") (py "3 + 1 fél szoba").
Definition page_1234567 : Soup :=
  detail_page description (py "1,234,567 Ft") (py "55 m²") (py "2 szoba").
Definition page_half_room : Soup :=
  detail_page description (py "31,9 M Ft") (py "55 m²") (py "4 + fél szoba").
Definition page_plus_digit : Soup :=
  detail_page description (py "31,9 M Ft") (py "55 m²") (py "3 +1 fél szoba").
Definition page_no_space : Soup :=
  detail_page (py "Eladó téglalakás, 5.kerület") (py "31,9 M Ft") (py "55 m²") (py "2 szoba").

(** A network that answers the listed urls, and fails on every other. *)
Fixpoint serve {A} (l : list (str * result A)) (url : str) : result A :=
  match l with
  | [] => Raise OtherError
  | (u, r) :: l' => if bool_decide (u = url) then r else serve l' url
  end.

(** A line of the file of urls. *)
Definition line (url : string) : str := py url ++ newline.
Global Arguments line _%_string.

(** Five urls, the third of which cannot be fetched. *)
Definition five_urls : list str :=
  [line "http://ingatlan.com/1"; line "http://ingatlan.com/2"; line "http://ingatlan.com/3";
   line "http://ingatlan.com/4"; line "http://ingatlan.com/5"].

Definition third_fails : str → result Soup :=
  serve [(line "http://ingatlan.com/1", Ok page_31_9);
         (line "http://ingatlan.com/2", Ok page_1234567);
         (line "http://ingatlan.com/3", Raise OtherError);
         (line "http://ingatlan.com/4", Ok page_half_room);
         (line "http://ingatlan.com/5", Ok page_plus_digit)].

(** Two results pages: an anchor of the first has an [href] without a
    listing number. *)
Definition bad_href : str → result (list str) :=
  serve [(GetUrls.page_url 1, Ok [py "/elado/22334455"; py "javascript:void(0)"]);
         (GetUrls.page_url 2, Ok [py "/elado/22334466"])].

(** A results page on which two anchors lead to the same listing. *)
Definition twice : list str :=
  [py "/elado/22334455"; py "/elado/22334466#photos"; py "/elado/22334455#map"].

(** The page of [page_31_9] without its map, and without its title. *)
Definition page_no_map : Soup :=
  {| metas := metas page_31_9; title_tag := title_tag page_31_9;
     strings := strings page_31_9; src_tags := [img (py "/images/logo.png")];
     listing_tag := listing_tag page_31_9; tds := tds page_31_9 |}.

Definition page_no_title : Soup :=
  {| metas := metas page_31_9; title_tag := None;
     strings := strings page_31_9; src_tags := src_tags page_31_9;
     listing_tag := listing_tag page_31_9; tds := tds page_31_9 |}.

(** The page of [page_31_9] with the label "Komfort" in its last table
    cell, after which the document ends. *)
Definition page_label_at_end : Soup :=
  {| metas := metas page_31_9; title_tag := title_tag page_31_9;
     strings := strings page_31_9; src_tags := src_tags page_31_9;
     listing_tag := listing_tag page_31_9;
     tds := tds page_31_9 ++ [ {| td_string := Some (py "Komfort"); td_hops := None |} ] |}.

(** A table in which the lift comes twice. *)
Definition lift_twice : list Td :=
  table_row (py "Lift") (py "nincs") ++ table_row (py "Lift") (py "van").

(** Three results pages: the second cannot be fetched, and the third leads
    to a listing of the first. *)
Definition three_pages : str → result (list str) :=
  serve [(GetUrls.page_url 1, Ok twice);
         (GetUrls.page_url 3, Ok [py "/elado/22334455"])].

(** A page on which no text node contains "szoba". *)
Definition page_no_rooms : Soup :=
  detail_page description (py "31,9 M Ft") (py "55 m²") (py "garzon").

(** A page whose title holds "szoba"; the title is the first text node. *)
Definition page_title_rooms : Soup :=
  {| metas := metas page_31_9;
     title_tag := Some (Some (py "Eladó lakás, 3 szoba - Andrássy út"));
     strings := py "Eladó lakás, 3 szoba - Andrássy út" :: tail (strings page_31_9);
     src_tags := src_tags page_31_9; listing_tag := listing_tag page_31_9;
     tds := tds page_31_9 |}.

(** The text nodes of [page_31_9] with the title element around the second
    of them. *)
Definition page_other_title : Soup :=
  {| metas := metas page_31_9; title_tag := Some (Some (py "Andrássy út"));
     strings := strings page_31_9; src_tags := src_tags page_31_9;
     listing_tag := listing_tag page_31_9; tds := tds page_31_9 |}.

End Fixtures.

(** ** Words for the properties of the two loops *)

(** The row the extractor writes for a url, if it writes one. *)
Definition row_of `{UnicodeData} (web : str → result ExtractDataFromUrl.Soup) (url : str)
  : option (list value) :=
  match web url ≫= ExtractDataFromUrl.extract with
  | Ok row => Some row
  | Raise _ => None
  end.

(** The rows the collector writes for a page that does not stop it. *)
Definition rows_of_page `{UnicodeData} (web : str → result (list str)) (page : nat)
  : list (list str) :=
  match web (GetUrls.page_url page) ≫= GetUrls.page_urls with
  | Ok l => (λ u, [u]) <$> l
  | Raise _ => []
  end.

(** The page cannot be fetched or parsed. *)
Definition fetch_fails (web : str → result (list str)) (page : nat) : bool :=
  match web (GetUrls.page_url page) with Raise _ => true | Ok _ => false end.

Local Close Scope N_scope.

(** * Properties *)

(** ** The matcher against what patterns denote *)

Section RegexFacts.
Context `{UnicodeData}.

Lemma greedy_sound cl i s k m :
  greedy cl i s k = Some m →
  ∃ w t, s = w ++ t ∧ Forall (λ c, accepts cl c = true) w ∧ k (i + length w)%nat t = Some m.
Proof.
  revert i. induction s as [|c s IH]; intros i; simpl.
  - intros Hk. exists [], []. rewrite Nat.add_0_r. auto.
  - destruct (accepts cl c) eqn:Hc.
    + destruct (greedy cl (S i) s k) as [m'|] eqn:Hg.
      * intros [= ->]. destruct (IH _ Hg) as (w & t & -> & Hw & Hk).
        exists (c :: w), t. simpl. rewrite Nat.add_succ_r. auto.
      * intros Hk. exists [], (c :: s). rewrite Nat.add_0_r. auto.
    + intros Hk. exists [], (c :: s). rewrite Nat.add_0_r. auto.
Qed.

Lemma greedy_complete cl w : ∀ i t k,
  Forall (λ c, accepts cl c = true) w →
  is_Some (k (i + length w)%nat t) →
  is_Some (greedy cl i (w ++ t) k).
Proof.
  induction w as [|c w IH]; intros i t k Hw Hk; simpl in *.
  - rewrite Nat.add_0_r in Hk. destruct t as [|c t]; simpl; [done|].
    destruct (accepts cl c); [|done]. by destruct (greedy cl (S i) t k).
  - apply Forall_cons in Hw as [-> Hw]. rewrite Nat.add_succ_r in Hk.
    destruct (IH (S i) t k Hw Hk) as [m ->]. by eexists.
Qed.

Lemma rmatch_sound r : ∀ i s g k m,
  rmatch r i s g k = Some m →
  ∃ w t gs, s = w ++ t ∧ denotes r i w gs ∧ k (i + length w)%nat t (gs ++ g) = Some m.
Proof.
  induction r as [|cl|cl|cl|cl| |n r IH|r1 IH1 r2 IH2]; intros i s g k m; simpl.
  - intros Hk. exists [], s, []. rewrite Nat.add_0_r. auto.
  - destruct s as [|c s]; [done|]. destruct (accepts cl c) eqn:Hc; [|done].
    intros Hk. exists [c], s, []. simpl. rewrite Nat.add_1_r. eauto 10.
  - destruct s as [|c s].
    + intros Hk. exists [], [], []. rewrite Nat.add_0_r. auto.
    + destruct (accepts cl c) eqn:Hc.
      * destruct (k (S i) s g) as [m'|] eqn:Hk1.
        -- intros [= ->]. exists [c], s, []. simpl. rewrite Nat.add_1_r. eauto 10.
        -- intros Hk. exists [], (c :: s), []. rewrite Nat.add_0_r. auto.
      * intros Hk. exists [], (c :: s), []. rewrite Nat.add_0_r. auto.
  - intros Hg. apply greedy_sound in Hg as (w & t & -> & Hw & Hk).
    exists w, t, []. auto.
  - destruct s as [|c s]; [done|]. destruct (accepts cl c) eqn:Hc; [|done].
    intros Hg. apply greedy_sound in Hg as (w & t & -> & Hw & Hk).
    exists (c :: w), t, []. simpl. rewrite Nat.add_succ_r. auto 10.
  - destruct (decide (i = O)) as [->|]; [|done].
    intros Hk. exists [], s, []. auto.
  - intros Hr. apply IH in Hr as (w & t & gs & -> & Hd & Hk).
    exists w, t, ((n, w) :: gs). split; [done|]. split; [eauto|].
    replace (i + length w - i)%nat with (length w) in Hk by lia.
    by rewrite take_app_length in Hk.
  - intros Hr. apply IH1 in Hr as (w1 & t1 & g1 & -> & Hd1 & Hk1).
    apply IH2 in Hk1 as (w2 & t2 & g2 & -> & Hd2 & Hk2).
    exists (w1 ++ w2), t2, (g2 ++ g1).
    rewrite <- !(assoc_L (++)), length_app, Nat.add_assoc. eauto 10.
Qed.

Lemma rmatch_complete r : ∀ i g k w t gs,
  denotes r i w gs →
  (∀ g', is_Some (k (i + length w)%nat t g')) →
  is_Some (rmatch r i (w ++ t) g k).
Proof.
  induction r as [|cl|cl|cl|cl| |n r IH|r1 IH1 r2 IH2]; intros i g k w t gs; simpl.
  - intros [-> ->] Hk. specialize (Hk g). by rewrite Nat.add_0_r in Hk.
  - intros [(c & -> & Hc) ->] Hk. simpl. rewrite Hc.
    specialize (Hk g). by rewrite Nat.add_1_r in Hk.
  - intros [[->|(c & -> & Hc)] ->] Hk; simpl.
    + specialize (Hk g). rewrite Nat.add_0_r in Hk.
      destruct t as [|c t]; [done|]. destruct (accepts cl c); [|done].
      by destruct (k (S i) t g).
    + rewrite Hc. specialize (Hk g). simpl in Hk. rewrite Nat.add_1_r in Hk.
      destruct Hk as [m ->]. by eexists.
  - intros [Hw ->] Hk. by apply greedy_complete.
  - intros (Hne & Hw & ->) Hk. destruct w as [|c w]; [done|].
    apply Forall_cons in Hw as [Hc Hw]. simpl. rewrite Hc.
    apply greedy_complete; [done|]. specialize (Hk g). simpl in Hk.
    by rewrite Nat.add_succ_r in Hk.
  - intros (-> & -> & ->) Hk. simpl. specialize (Hk g). by rewrite Nat.add_0_r in Hk.
  - intros (gs' & Hd & ->) Hk. eapply IH; [done|]. intros g'. apply Hk.
  - intros (w1 & w2 & g1 & g2 & -> & Hd1 & Hd2 & ->) Hk.
    rewrite <- (assoc_L (++)). eapply IH1; [done|]. intros g'.
    eapply IH2; [done|]. intros g''. rewrite <- Nat.add_assoc, <- length_app. apply Hk.
Qed.

(** An attempt at one offset. *)
Lemma match_here_sound r i s m :
  match_here r i s = Some m →
  ∃ w t gs, s = w ++ t ∧ denotes r i w gs ∧ m = Match i (i + length w) gs.
Proof.
  intros Hm. apply rmatch_sound in Hm as (w & t & gs & -> & Hd & [= <-]).
  exists w, t, gs. by rewrite app_nil_r.
Qed.

Lemma match_here_complete r i w t gs :
  denotes r i w gs → is_Some (match_here r i (w ++ t)).
Proof. intros Hd. eapply rmatch_complete; [done|]. by eexists. Qed.

(** [search] finds a match exactly when some part of the subject is
    denoted by the pattern, and the one it finds starts at the leftmost
    offset where one starts. *)
Lemma search_from_sound r s : ∀ i m,
  search_from r i s = Some m →
  ∃ a w b gs, s = a ++ w ++ b ∧ denotes r (i + length a) w gs
    ∧ m = Match (i + length a) (i + length a + length w) gs
    ∧ ∀ a' w' b' gs', s = a' ++ w' ++ b' → length a' < length a →
        ¬ denotes r (i + length a') w' gs'.
Proof.
  induction s as [|c s IH]; intros i m; simpl.
  - destruct (match_here r i []) as [m'|] eqn:Hm; [|done].
    intros [= ->]. apply match_here_sound in Hm as (w & t & gs & Hs & Hd & ->).
    exists [], w, t, gs. simpl. rewrite Nat.add_0_r. repeat split; auto. intros; lia.
  - destruct (match_here r i (c :: s)) as [m'|] eqn:Hm.
    + intros [= ->]. apply match_here_sound in Hm as (w & t & gs & Hs & Hd & ->).
      exists [], w, t, gs. simpl. rewrite Nat.add_0_r. repeat split; auto. intros; lia.
    + intros Hs. apply IH in Hs as (a & w & b & gs & -> & Hd & -> & Hleft).
      exists (c :: a), w, b, gs. simpl. rewrite <- !Nat.add_succ_comm.
      repeat split; auto.
      intros [|c' a'] w' b' gs' Heq Hlen Hd'; simpl in *.
      * rewrite Nat.add_0_r in Hd'.
        pose proof (match_here_complete r i w' b' gs' Hd') as Hsome.
        rewrite <- Heq, Hm in Hsome. by destruct Hsome.
      * injection Heq as -> Heq. rewrite <- Nat.add_succ_comm in Hd'.
        eapply Hleft; [done| |done]. lia.
Qed.

Lemma search_from_None r s : ∀ i,
  search_from r i s = None ↔
  ∀ a w b gs, s = a ++ w ++ b → ¬ denotes r (i + length a) w gs.
Proof.
  induction s as [|c s IH]; intros i; simpl.
  - destruct (match_here r i []) as [m'|] eqn:Hm.
    + split; [done|]. intros Hno. exfalso.
      apply match_here_sound in Hm as (w & t & gs & Hs & Hd & ->).
      apply (Hno [] w t gs); simpl; [done|]. by rewrite Nat.add_0_r.
    + split; [|done]. intros _ a w b gs Heq Hd.
      destruct a; [|done]. simpl in *. rewrite Nat.add_0_r in Hd.
      pose proof (match_here_complete r i w b gs Hd) as Hsome.
      rewrite <- Heq, Hm in Hsome. by destruct Hsome.
  - destruct (match_here r i (c :: s)) as [m'|] eqn:Hm.
    + split; [done|]. intros Hno. exfalso.
      apply match_here_sound in Hm as (w & t & gs & Hs & Hd & ->).
      apply (Hno [] w t gs); simpl; [done|]. by rewrite Nat.add_0_r.
    + rewrite IH. split.
      * intros Hno [|c' a] w b gs Heq Hd; simpl in *.
        -- rewrite Nat.add_0_r in Hd.
           pose proof (match_here_complete r i w b gs Hd) as Hsome.
           rewrite <- Heq, Hm in Hsome. by destruct Hsome.
        -- injection Heq as -> Heq. rewrite <- Nat.add_succ_comm in Hd. by eapply Hno.
      * intros Hno a w b gs Heq Hd. apply (Hno (c :: a) w b gs); simpl.
        -- by rewrite Heq.
        -- by rewrite <- Nat.add_succ_comm.
Qed.

Lemma search_Some r s m :
  search r s = Some m →
  ∃ a w b gs, s = a ++ w ++ b ∧ denotes r (length a) w gs
    ∧ m = Match (length a) (length a + length w) gs
    ∧ ∀ a' w' b' gs', s = a' ++ w' ++ b' → length a' < length a →
        ¬ denotes r (length a') w' gs'.
Proof. apply search_from_sound. Qed.

Lemma search_None r s :
  search r s = None ↔ ∀ a w b gs, s = a ++ w ++ b → ¬ denotes r (length a) w gs.
Proof. apply search_from_None. Qed.

(** Every group of the pattern takes part in a match. *)
Lemma denotes_closing r : ∀ i w gs, denotes r i w gs → gs.*1 = closing r.
Proof.
  induction r as [|cl|cl|cl|cl| |n r IH|r1 IH1 r2 IH2]; intros i w gs; simpl;
    try (intros Hd; by decompose [and] Hd; subst).
  - intros (gs' & Hd & ->). simpl. f_equal. eauto.
  - intros (w1 & w2 & g1 & g2 & -> & Hd1 & Hd2 & ->).
    rewrite fmap_app. f_equal; eauto.
Qed.

Lemma assoc_is_Some n (gs : list (nat * list N)) : n ∈ gs.*1 → is_Some (assoc n gs).
Proof.
  induction gs as [|[k v] gs IH]; simpl; [by intros ?%elem_of_nil|].
  intros [->|Hin]%elem_of_cons; case_decide; eauto; done.
Qed.

Lemma search_group r s m n :
  search r s = Some m → n ∈ closing r → is_Some (group n m).
Proof.
  intros (a & w & b & gs & _ & Hd & -> & _)%search_Some Hn.
  apply assoc_is_Some. simpl. by rewrite (denotes_closing _ _ _ _ Hd).
Qed.

(** A literal word denotes itself, and is found exactly in the texts that
    contain it. *)
Lemma denotes_word w : ∀ i x gs, denotes (word w) i x gs ↔ x = w ∧ gs = [].
Proof.
  induction w as [|c w IH]; intros i x gs; simpl; [done|].
  split.
  - intros (w1 & w2 & g1 & g2 & -> & [(c' & -> & Hc) ->] & Hd & ->).
    apply IH in Hd as [-> ->]. apply N.eqb_eq in Hc as ->. done.
  - intros [-> ->]. exists [c], w, [], []. repeat split; [|by apply IH].
    exists c. by rewrite N.eqb_refl.
Qed.

Lemma search_word w s : is_Some (search (word w) s) ↔ contains w s.
Proof.
  split.
  - intros [m (a & x & b & gs & -> & [-> _]%denotes_word & _)%search_Some].
    by exists a, b.
  - intros (a & b & ->). destruct (search (word w) (a ++ w ++ b)) eqn:Hs; [done|].
    exfalso. rewrite search_None in Hs. eapply Hs; [done|]. by apply denotes_word.
Qed.

End RegexFacts.

(** ** The monad of exceptions *)

Lemma bind_Ok {A B} (m : result A) (f : A → result B) b :
  m ≫= f = Ok b → ∃ a, m = Ok a ∧ f a = Ok b.
Proof. destruct m; simpl; [eauto|done]. Qed.

Lemma deref_Ok {A} (o : option A) a : deref o = Ok a → o = Some a.
Proof. destruct o; simpl; congruence. Qed.

Import ExtractDataFromUrl.

(** ** The extractor *)

Section ExtractorFacts.
Context `{UnicodeData}.

(** [soup.find(text=...)] with a literal: the first text node that contains it. *)
Lemma matched_word w t : matched (search (word w) t) = true ↔ contains w t.
Proof.
  rewrite <- search_word. unfold matched.
  destruct (search (word w) t); split; intros; try done; by eauto.
Qed.

Lemma find_text_Some w soup t :
  find_text (word w) soup = Some t ↔ first_with (contains w) (strings soup) t.
Proof.
  unfold find_text, first_with. induction (strings soup) as [|x l IH]; simpl.
  - split; [done|]. intros (l1 & l2 & Heq & _). by destruct l1.
  - destruct (matched (search (word w) x)) eqn:Hx.
    + apply matched_word in Hx. split.
      * intros [= ->]. exists [], l. auto.
      * intros ([|y l1] & l2 & [= ? ?] & Ht & Hl1); subst; [done|].
        by apply Forall_cons in Hl1 as [? _].
    + assert (¬ contains w x) as Hnx by (rewrite <- matched_word; congruence).
      rewrite IH. split.
      * intros (l1 & l2 & -> & Ht & Hl1). exists (x :: l1), l2. auto.
      * intros ([|y l1] & l2 & [= ? ?] & Ht & Hl1); subst; [done|].
        apply Forall_cons in Hl1 as [_ ?]. eauto.
Qed.

Lemma find_text_None w soup :
  find_text (word w) soup = None ↔ Forall (λ t, ¬ contains w t) (strings soup).
Proof.
  unfold find_text. induction (strings soup) as [|x l IH]; simpl; [done|].
  destruct (matched (search (word w) x)) eqn:Hx.
  - apply matched_word in Hx. split; [done|]. by intros [? _]%Forall_cons.
  - assert (¬ contains w x) as Hnx by (rewrite <- matched_word; congruence).
    rewrite IH. split; [auto|]. by intros [_ ?]%Forall_cons.
Qed.

(** What a row is made of when the extraction returns one. *)
Lemma extract_Ok soup row :
  extract soup = Ok row →
  ∃ raw title t p a fr hr la lo l e,
    metas soup !! 4 = Some (Some raw) ∧ title_tag soup = Some (Some title)
    ∧ find_text (lit "szoba") soup = Some t
    ∧ price (find_text (lit "Ft") soup) = Ok p
    ∧ area (find_text (lit "m²") soup) = Ok a
    ∧ fullrooms (Some t) = Ok fr ∧ halfrooms (Some t) = Ok hr
    ∧ lat (str_find_all_src (lit "center") soup) = Ok la
    ∧ long (str_find_all_src (lit "center") soup) = Ok lo
    ∧ listing_tag soup = Some l
    ∧ td_loop no_attrs (tds soup) = Ok e
    ∧ row = [of_option l; p; a; VStr t; fr; hr;
             district (replace newline [] raw); varos (replace newline [] raw);
             e condition; e floor; e storeys; e lift; e heating; e view; la; lo;
             e orient; e parking; e balcony; e aircon; e ceiling; e utility;
             e bathtoil; e garcess].
Proof.
  unfold extract. intros Hx.
  destruct (metas soup !! 4) as [[raw|]|] eqn:Hmeta; simpl in Hx; try done.
  destruct (title_tag soup) as [[title|]|] eqn:Htitle; simpl in Hx; try done.
  apply bind_Ok in Hx as (p & Hp & Hx).
  apply bind_Ok in Hx as (a & Ha & Hx).
  destruct (find_text (lit "szoba") soup) as [t|] eqn:Ht; simpl in Hx; [|done].
  apply bind_Ok in Hx as (fr & Hfr & Hx).
  apply bind_Ok in Hx as (hr & Hhr & Hx).
  apply bind_Ok in Hx as (la & Hla & Hx).
  apply bind_Ok in Hx as (lo & Hlo & Hx).
  destruct (listing_tag soup) as [l|] eqn:Hl; simpl in Hx; [|done].
  apply bind_Ok in Hx as (e & He & [= <-]).
  by exists raw, title, t, p, a, fr, hr, la, lo, l, e.
Qed.

Lemma extract_Ok_intro soup raw title t p a fr hr la lo l e :
  metas soup !! 4 = Some (Some raw) → title_tag soup = Some (Some title) →
  find_text (lit "szoba") soup = Some t →
  price (find_text (lit "Ft") soup) = Ok p →
  area (find_text (lit "m²") soup) = Ok a →
  fullrooms (Some t) = Ok fr → halfrooms (Some t) = Ok hr →
  lat (str_find_all_src (lit "center") soup) = Ok la →
  long (str_find_all_src (lit "center") soup) = Ok lo →
  listing_tag soup = Some l →
  td_loop no_attrs (tds soup) = Ok e →
  extract soup =
    Ok [of_option l; p; a; VStr t; fr; hr;
        district (replace newline [] raw); varos (replace newline [] raw);
        e condition; e floor; e storeys; e lift; e heating; e view; la; lo;
        e orient; e parking; e balcony; e aircon; e ceiling; e utility;
        e bathtoil; e garcess].
Proof.
  intros Hmeta Htitle Ht Hp Ha Hfr Hhr Hla Hlo Hl He. unfold extract.
  rewrite Hmeta, Htitle. cbn [from_option deref mbind result_bind].
  rewrite Hp, Ha, Ht, Hfr, Hhr, Hla, Hlo, Hl. cbn [from_option deref mbind result_bind].
  by rewrite He.
Qed.

(** The first text node that contains a literal, when the extraction
    looks for it. *)
Lemma find_text_first w soup t :
  first_with (contains (py w)) (strings soup) t → find_text (lit w) soup = Some t.
Proof. apply find_text_Some. Qed.

(** C1 (as amended).  On a detail page whose first text node containing
    "Ft" is "31 900 000 Ft" the price written is "31", and where it is
    "1,234,567 Ft" the price is "1.234": the pattern keeps the first run of
    digits, an optional comma and digits, and the comma becomes a period.
    Where the first text node containing "m²" is "55 m²" the area written
    is "55". *)
Theorem price_and_area_fixtures soup row :
  extract soup = Ok row →
  (first_with (contains (py "Ft")) (strings soup) (py "31 900 000 Ft") →
     row !! 1 = Some (VStr (py "31")))
  ∧ (first_with (contains (py "Ft")) (strings soup) (py "1,234,567 Ft") →
     row !! 1 = Some (VStr (py "1.234")))
  ∧ (first_with (contains (py "m²")) (strings soup) (py "55 m²") →
     row !! 2 = Some (VStr (py "55"))).
Proof.
  intros (raw & title & t & p & a & fr & hr & la & lo & l & e & _ & _ & _
          & Hp & Ha & _ & _ & _ & _ & _ & _ & ->)%extract_Ok.
  split; [|split]; intros Hfirst%find_text_first.
  - rewrite Hfirst in Hp. by injection Hp as <-.
  - rewrite Hfirst in Hp. by injection Hp as <-.
  - rewrite Hfirst in Ha. by injection Ha as <-.
Qed.

(** C4.  Room parsing on the text [t] of the first node containing "szoba":
    "3 + 1 fél szoba" gives full rooms "3" and half rooms "1"; "2 szoba"
    gives "2" and 0; "4 + fél szoba", where the digit group is empty, gives
    half rooms 1; and whenever the half-room pattern is not found in [t]
    the half rooms are 0. *)
Theorem room_parsing soup row t :
  extract soup = Ok row →
  first_with (contains (py "szoba")) (strings soup) t →
  (t = py "3 + 1 fél szoba" →
     row !! 4 = Some (VStr (py "3")) ∧ row !! 5 = Some (VStr (py "1")))
  ∧ (t = py "2 szoba" →
     row !! 4 = Some (VStr (py "2")) ∧ row !! 5 = Some (VInt 0))
  ∧ (t = py "4 + fél szoba" →
     search halfrooms_regex t ≫= group 2 = Some [] ∧ row !! 5 = Some (VInt 1))
  ∧ (search halfrooms_regex t = None → row !! 5 = Some (VInt 0)).
Proof.
  intros (raw & title & t' & p & a & fr & hr & la & lo & l & e & _ & _ & Ht
          & _ & _ & Hfr & Hhr & _ & _ & _ & _ & ->)%extract_Ok Hfirst%find_text_first.
  assert (t' = t) as -> by congruence.
  split; [|split; [|split]]; intros Heq; try subst t.
  - injection Hfr as <-. by injection Hhr as <-.
  - injection Hfr as <-. by injection Hhr as <-.
  - injection Hhr as <-. by vm_compute.
  - unfold halfrooms in Hhr. simpl in Hhr. rewrite Heq in Hhr. by injection Hhr as <-.
Qed.





(** *** The attribute table *)

(** A cell whose text is not the label of [a] leaves [a] as it is. *)
Lemma td_step_other e td e' a :
  td_step e td = Ok e' → td_string td ≠ Some (label a) → e' a = e a.
Proof.
  unfold td_step. intros Hstep Hne.
  destruct (List.find _ chain) as [b|] eqn:Hfind; [|congruence].
  apply find_some in Hfind as [_ Hb%bool_decide_eq_true].
  apply bind_Ok in Hstep as (v & _ & [= <-]).
  unfold assign. case_decide; congruence.
Qed.

Lemma td_loop_other l : ∀ e e' a,
  td_loop e l = Ok e' → Forall (λ td, td_string td ≠ Some (label a)) l → e' a = e a.
Proof.
  induction l as [|td l IH]; intros e e' a; simpl; [congruence|].
  intros (e1 & Hstep & Hloop)%bind_Ok [Hne Hl]%Forall_cons.
  rewrite (IH _ _ _ Hloop Hl). eauto using td_step_other.
Qed.

(** C5.  Every row the extraction returns has the same 24 cells in the same
    order, each field at its own place, whatever the page holds: an attribute
    whose label is in no table cell is the empty string, a district or a city
    area whose pattern is not found is the empty string, and full or half
    rooms whose pattern is not found are 0. *)
Theorem record_shape soup row :
  extract soup = Ok row →
  length row = 24
  ∧ (∀ soup' row', extract soup' = Ok row' → length row' = length row)
  ∧ (∃ l p a t fr hr la lo raw,
       listing_tag soup = Some l ∧ price (find_text (lit "Ft") soup) = Ok p
       ∧ area (find_text (lit "m²") soup) = Ok a
       ∧ find_text (lit "szoba") soup = Some t
       ∧ fullrooms (Some t) = Ok fr ∧ halfrooms (Some t) = Ok hr
       ∧ lat (str_find_all_src (lit "center") soup) = Ok la
       ∧ long (str_find_all_src (lit "center") soup) = Ok lo
       ∧ metas soup !! 4 = Some (Some raw)
       ∧ take 8 row = [of_option l; p; a; VStr t; fr; hr;
                       district (replace newline [] raw); varos (replace newline [] raw)]
       ∧ row !! 14 = Some la ∧ row !! 15 = Some lo)
  ∧ (∃ e, td_loop no_attrs (tds soup) = Ok e ∧ ∀ a, row !! column a = Some (e a))
  ∧ (∀ a, Forall (λ td, td_string td ≠ Some (label a)) (tds soup) →
       row !! column a = Some (VStr []))
  ∧ (∀ raw, metas soup !! 4 = Some (Some raw) →
       (search district_regex (replace newline [] raw) = None → row !! 6 = Some (VStr []))
       ∧ (search varos_regex (replace newline [] raw) = None → row !! 7 = Some (VStr [])))
  ∧ (∀ t, find_text (lit "szoba") soup = Some t →
       (search fullrooms_regex t = None → row !! 4 = Some (VInt 0))
       ∧ (search halfrooms_regex t = None → row !! 5 = Some (VInt 0))).
Proof.
  intros (raw & title & t & p & a & fr & hr & la & lo & l & e & Hmeta & _ & Ht
          & Hp & Ha & Hfr & Hhr & Hla & Hlo & Hl & He & ->)%extract_Ok.
  split; [done|]. split; [|split; [|split; [|split; [|split]]]].
  - by intros soup' row' (? & ? & ? & ? & ? & ? & ? & ? & ? & ? & ? & Hrow')%extract_Ok;
      decompose [and] Hrow'; subst.
  - by exists l, p, a, t, fr, hr, la, lo, raw.
  - exists e. split; [done|]. by intros [].
  - intros b Hb. pose proof (td_loop_other _ _ _ b He Hb) as Heb.
    destruct b; simpl; by rewrite Heb.
  - intros raw' Hraw. assert (raw' = raw) as -> by congruence.
    unfold district, varos. split; intros ->; done.
  - intros t' Ht'. assert (t' = t) as -> by congruence.
    unfold fullrooms, halfrooms in *. simpl in *.
    split; intros Hnone; rewrite Hnone in *; congruence.
Qed.

(** *** The fields that can stop the extraction *)


Section OneTurn.
Variable web : str → result Soup.

Lemma iteration_raises st url :
  raises web url = true →
  out_file (iteration web st url) = out_file st
  ∧ err_count (iteration web st url) = S (err_count st)
  ∧ count (iteration web st url) = count st.
Proof.
  unfold raises, iteration. destruct (web url) as [soup|e]; simpl; [|done].
  by destruct (extract soup).
Qed.

Lemma iteration_returns st url :
  raises web url = false →
  ∃ row, web url ≫= extract = Ok row
    ∧ out_file (iteration web st url) = out_file st ++ [row]
    ∧ err_count (iteration web st url) = err_count st
    ∧ count (iteration web st url) = S (count st).
Proof.
  unfold raises, iteration. destruct (web url) as [soup|e]; simpl; [|done].
  destruct (extract soup) as [row|]; [|done]. by exists row.
Qed.

Lemma loop_counts urls : ∀ st,
  let E := length (filter (λ u, raises web u = true) urls) in
  length (out_file (foldl (iteration web) st urls)) + E
    = length (out_file st) + length urls
  ∧ err_count (foldl (iteration web) st urls) = err_count st + E.
Proof.
  induction urls as [|url urls IH]; intros st; simpl; [lia|].
  destruct (IH (iteration web st url)) as [Hout Herr].
  destruct (raises web url) eqn:Hr.
  - destruct (iteration_raises st url Hr) as (Ho & He & _).
    rewrite filter_cons_True by done. simpl. rewrite Ho, He in *. lia.
  - destruct (iteration_returns st url Hr) as (row & _ & Ho & He & _).
    rewrite filter_cons_False by congruence.
    rewrite Ho, He, length_app in *. simpl in *. lia.
Qed.

(** C3.  On a list of K urls of which E make the body of the [try] raise
    (in fetching, in parsing or in a field that must be there), the script
    writes K - E rows, and the error count it ends with and prints is E. *)
Theorem rows_and_errors urls K E :
  length urls = K →
  length (filter (λ u, raises web u = true) urls) = E →
  length (out_file (main web urls)) = K - E
  ∧ err_count (main web urls) = E
  ∧ last (console (main web urls)) = Some (NumberOfErrors E).
Proof.
  intros HK HE. destruct (loop_counts urls start) as [Hout Herr].
  rewrite HK, HE in *. unfold main. simpl in *.
  rewrite last_snoc. rewrite Herr. repeat split; lia.
Qed.


End OneTurn.

(** *** The description and the title *)

Lemma extract_with_meta soup row raw raw' :
  extract soup = Ok row → metas soup !! 4 = Some (Some raw) →
  ∃ row', extract (with_meta raw' soup) = Ok row'.
Proof.
  intros (raw0 & title & t & p & a & fr & hr & la & lo & l & e & _ & Htitle & Ht
          & Hp & Ha & Hfr & Hhr & Hla & Hlo & Hl & He & _)%extract_Ok Hraw.
  eexists. apply extract_Ok_intro with (raw := raw') (title := title) (t := t) (l := l);
    try done.
  simpl. apply list_lookup_insert_eq. by eapply lookup_lt_Some.
Qed.

(** C7 (as amended).  With the newlines of the fifth meta tag's content
    removed, the district is the first group of "(\d+\.\sker).let" found in
    it (one whitespace character, no more and no less, between the period
    and "ker") and the city area the first group of "\(([A-Z].+)\)"; a
    pattern that is not found gives the empty string, and whatever the
    content is the extraction does not raise on it. *)
Theorem meta_fields soup row raw :
  extract soup = Ok row → metas soup !! 4 = Some (Some raw) →
  let meta := replace newline [] raw in
  (∀ m, search district_regex meta = Some m →
     ∃ d, group 1 m = Some d ∧ row !! 6 = Some (VStr d))
  ∧ (search district_regex meta = None → row !! 6 = Some (VStr []))
  ∧ (∀ m, search varos_regex meta = Some m →
     ∃ v, group 1 m = Some v ∧ row !! 7 = Some (VStr v))
  ∧ (search varos_regex meta = None → row !! 7 = Some (VStr []))
  ∧ (∀ content, ∃ row', extract (with_meta content soup) = Ok row').
Proof.
  intros Hx Hraw meta. split; [|split; [|split; [|split]]];
    [| | | |by eauto using extract_with_meta].
  all: apply extract_Ok in Hx
    as (raw' & title & t & p & a & fr & hr & la & lo & l & e & Hmeta & _ & _
        & _ & _ & _ & _ & _ & _ & _ & _ & ->);
    assert (raw' = raw) as -> by congruence; fold meta; simpl.
  - intros m Hm. destruct (search_group _ _ _ 1 Hm) as [d Hd]; [set_solver|].
    exists d. unfold district. by rewrite Hm, Hd.
  - intros Hm. unfold district. by rewrite Hm.
  - intros m Hm. destruct (search_group _ _ _ 1 Hm) as [d Hd]; [set_solver|].
    exists d. unfold varos. by rewrite Hm, Hd.
  - intros Hm. unfold varos. by rewrite Hm.
Qed.

(** C9 (as amended).  The fourth cell of a written row is the text of the
    first node containing "szoba" as it stands, not a count read from it,
    and it is the text of the title when the title is that node.  The title
    has no cell of its own: the row is made of the text nodes, the meta tags,
    the elements with a [src], the listing element and the table cells, so
    that two parsed documents which differ in nothing else give one row. *)
Theorem rooms_text_and_title soup row :
  extract soup = Ok row →
  (∃ t, first_with (contains (py "szoba")) (strings soup) t ∧ row !! 3 = Some (VStr t))
  ∧ (∀ t, title_tag soup = Some (Some t) →
       first_with (contains (py "szoba")) (strings soup) t →
       row !! 3 = Some (VStr t))
  ∧ (∀ soup' t', title_is_text soup' → title_tag soup' = Some (Some t') →
       metas soup' = metas soup → strings soup' = strings soup →
       src_tags soup' = src_tags soup → listing_tag soup' = listing_tag soup →
       tds soup' = tds soup →
       extract soup' = Ok row).
Proof.
  intros (raw & title & t & p & a & fr & hr & la & lo & l & e & Hmeta & _ & Ht
          & Hp & Ha & Hfr & Hhr & Hla & Hlo & Hl & He & ->)%extract_Ok.
  split; [|split].
  - exists t. split; [by apply find_text_Some|done].
  - intros t' _ Hfirst%find_text_first. by assert (t' = t) as -> by congruence.
  - intros soup' t' _ Htitle' Hmetas Hstrings Hsrc Hlisting Htds.
    apply extract_Ok_intro with (title := t'); try done.
    + by rewrite Hmetas.
    + unfold find_text. by rewrite Hstrings.
    + unfold find_text. by rewrite Hstrings.
    + unfold find_text. by rewrite Hstrings.
    + unfold str_find_all_src. by rewrite Hsrc.
    + unfold str_find_all_src. by rewrite Hsrc.
    + by rewrite Hlisting.
    + by rewrite Htds.
Qed.

End ExtractorFacts.

(** ** The collector *)

Section CollectorFacts.
Context `{UnicodeData}.
Import GetUrls.

(** An [href] gives a url when the pattern is found in it, and an
    [AttributeError] when it is not. *)
Lemma href_found h m :
  search regex h = Some m → ∃ id, group 1 m = Some id ∧ href h = Ok (site ++ id).
Proof.
  intros Hm. destruct (search_group _ _ _ 1 Hm) as [id Hid]; [set_solver|].
  exists id. unfold href. by rewrite Hm; simpl; rewrite Hid.
Qed.

Lemma href_not_found h : search regex h = None → href h = Raise AttributeError.
Proof. intros Hm. unfold href. by rewrite Hm. Qed.

Lemma href_list_not_found tags_a h :
  h ∈ tags_a → search regex h = None → href_list tags_a = Raise AttributeError.
Proof.
  intros Hin Hno. induction tags_a as [|tag rest IH]; [by apply elem_of_nil in Hin|].
  simpl. destruct (search regex tag) as [m|] eqn:Hm.
  - destruct (href_found _ _ Hm) as (id & _ & ->). simpl.
    apply elem_of_cons in Hin as [->|Hin]; [congruence|]. by rewrite IH.
  - by rewrite href_not_found.
Qed.

Lemma href_list_Ok tags_a l :
  href_list tags_a = Ok l → ∀ u, u ∈ l ↔ ∃ h, h ∈ tags_a ∧ href h = Ok u.
Proof.
  revert l. induction tags_a as [|tag rest IH]; simpl; intros l.
  - intros [= <-] u. split; [by intros ?%elem_of_nil|]. by intros (h & ?%elem_of_nil & _).
  - intros (u0 & Hu0 & Hl)%bind_Ok. apply bind_Ok in Hl as (l' & Hl' & [= <-]).
    intros u. rewrite elem_of_cons, (IH _ Hl'). split.
    + intros [->|(h & Hh & Hu)]; [exists tag|exists h]; rewrite elem_of_cons; auto.
    + intros (h & [->|Hh]%elem_of_cons & Hu); [left; congruence|right; eauto].
Qed.

Section Run.
Variable web : str → result (list str).

Lemma pages_app l1 l2 st :
  pages web (l1 ++ l2) st =
    match pages web l1 st with
    | Finished st1 => pages web l2 st1
    | Uncaught e st1 => Uncaught e st1
    end.
Proof.
  revert st. induction l1 as [|page l1 IH]; intros st; simpl; [done|].
  destruct (web (page_url page)) as [tags_a|e]; [|apply IH].
  destruct (page_urls tags_a); [apply IH|done].
Qed.

Lemma out_file_writerows l : ∀ st,
  out_file (foldl (λ st h, writerow [h] st) st l) = out_file st ++ ((λ u, [u]) <$> l)
  ∧ err_count (foldl (λ st h, writerow [h] st) st l) = err_count st.
Proof.
  induction l as [|u l IH]; intros st; simpl; [by rewrite app_nil_r|].
  destruct (IH (writerow [u] st)) as [-> ->]. simpl. by rewrite <- (assoc_L (++)).
Qed.

(** C2 (as amended).  When a results page is fetched and parsed and the
    pattern is not found in the [href] of one of its anchors, the
    [AttributeError] is not caught: the handler of the page guards the fetch
    and the parse only.  The script stops there, in the state the earlier
    pages left and with the url of the page printed: nothing is written for
    the page or for a later one, the error count is not incremented, and no
    final count is printed. *)
Theorem unmatched_href_stops_the_run n page tags_a h st :
  1 ≤ page ≤ n →
  pages web (seq 1 (page - 1)) start = Finished st →
  web (page_url page) = Ok tags_a →
  h ∈ tags_a → search regex h = None →
  collect web n = Uncaught AttributeError (print (Url (page_url page)) st).
Proof.
  intros Hpage Hbefore Hweb Hin Hno. unfold collect.
  replace n with ((page - 1) + S (n - page)) by lia.
  rewrite seq_app, pages_app, Hbefore.
  replace (1 + (page - 1)) with page by lia. simpl.
  rewrite Hweb. unfold page_urls.
  by rewrite (href_list_not_found _ _ Hin Hno).
Qed.

End Run.

Lemma filter_absent (u : list N) (l : list (list N)) :
  u ∉ l → filter (λ x, x = u) l = [].
Proof.
  induction l as [|x l IH]; [done|]. intros [Hne Hl]%not_elem_of_cons.
  rewrite filter_cons_False by congruence. auto.
Qed.

Lemma NoDup_once (u : list N) (l : list (list N)) :
  NoDup l → u ∈ l → length (filter (λ x, x = u) l) = 1.
Proof.
  induction 1 as [|x l Hx Hl IH]; [by intros ?%elem_of_nil|].
  intros [->|Hin]%elem_of_cons.
  - rewrite filter_cons_True by done. simpl. by rewrite filter_absent.
  - rewrite filter_cons_False; [by apply IH|]. by intros ->.
Qed.

(** C8.  The urls written for one results page are the urls of its anchors,
    each once: there is no duplicate among them, and where two anchors of
    the page resolve to the same listing number the url of that listing is
    written exactly once. *)
Theorem page_urls_once tags_a urls :
  page_urls tags_a = Ok urls →
  NoDup urls
  ∧ (∀ u, u ∈ urls ↔ ∃ h, h ∈ tags_a ∧ href h = Ok u)
  ∧ (∀ i j h1 h2 id, i ≠ j →
       tags_a !! i = Some h1 → tags_a !! j = Some h2 →
       search regex h1 ≫= group 1 = Some id →
       search regex h2 ≫= group 1 = Some id →
       length (filter (λ u, u = site ++ id) urls) = 1)
  ∧ (∀ web page st, web (page_url page) = Ok tags_a →
       ∃ st', pages web [page] st = Finished st'
         ∧ out_file st' = out_file st ++ ((λ u, [u]) <$> urls)).
Proof.
  unfold page_urls. intros (l & Hl & [= <-])%bind_Ok.
  assert (NoDup (list_set l)) as Hnd by (unfold list_set; apply NoDup_elements).
  assert (∀ u, u ∈ list_set l ↔ ∃ h, h ∈ tags_a ∧ href h = Ok u) as Hmem.
  { intros u. unfold list_set. rewrite elem_of_elements, elem_of_list_to_set.
    by apply href_list_Ok. }
  split; [done|]. split; [done|]. split.
  - intros i j h1 h2 id _ Hh1 _ Hid1 _. apply NoDup_once; [done|].
    apply Hmem. exists h1. split; [by eapply list_elem_of_lookup_2|].
    destruct (search regex h1) as [m|] eqn:Hm; [|done]. simpl in Hid1.
    destruct (href_found _ _ Hm) as (id' & Hid' & ->). congruence.
  - intros web page st Hweb. simpl. rewrite Hweb. unfold page_urls. rewrite Hl. simpl.
    eexists. split; [done|]. by destruct (out_file_writerows (list_set l) (print (Url (page_url page)) st)) as [-> _].
Qed.

End CollectorFacts.

(** ** More on the patterns of the extractor *)

Section PatternFacts.
Context `{UnicodeData}.

(** A run of characters of a class that cannot be extended is taken whole. *)
Lemma greedy_longest cl run : ∀ i rest k m,
  Forall (λ c, accepts cl c = true) run →
  (rest = [] ∨ ∃ c rest', rest = c :: rest' ∧ accepts cl c = false) →
  k (i + length run) rest = Some m →
  greedy cl i (run ++ rest) k = Some m.
Proof.
  induction run as [|c run IH]; intros i rest k m Hrun Hrest Hk; simpl in *.
  - rewrite Nat.add_0_r in Hk. destruct Hrest as [->|(c & rest' & -> & Hc)]; simpl; [done|].
    by rewrite Hc.
  - apply Forall_cons in Hrun as [-> Hrun]. rewrite Nat.add_succ_r in Hk.
    by rewrite (IH (S i) rest k m Hrun Hrest Hk).
Qed.

(** The group [(\d+)] read where a run of digits begins. *)
Lemma match_here_digits i run rest :
  run ≠ [] → Forall (λ c, is_decimal c = true) run →
  (rest = [] ∨ ∃ c rest', rest = c :: rest' ∧ is_decimal c = false) →
  match_here (Group 1 (Plus Digit)) i (run ++ rest)
    = Some (Match i (i + length run) [(1, run)]).
Proof.
  intros Hne Hrun Hrest. destruct run as [|c run]; [done|].
  apply Forall_cons in Hrun as [Hc Hrun]. unfold match_here. simpl. rewrite Hc.
  erewrite (greedy_longest Digit run (S i) rest); [done|done|done|]. simpl.
  do 3 f_equal; [lia|]. f_equal.
  replace (S (i + length run) - i) with (S (length run)) by lia.
  simpl. by rewrite take_app_length.
Qed.

Lemma search_from_digits pre : ∀ i run rest,
  Forall (λ c, is_decimal c = false) pre →
  run ≠ [] → Forall (λ c, is_decimal c = true) run →
  (rest = [] ∨ ∃ c rest', rest = c :: rest' ∧ is_decimal c = false) →
  search_from (Group 1 (Plus Digit)) i (pre ++ run ++ rest)
    = Some (Match (i + length pre) (i + length pre + length run) [(1, run)]).
Proof.
  induction pre as [|c pre IH]; intros i run rest Hpre Hne Hrun Hrest.
  - simpl. rewrite Nat.add_0_r.
    destruct run as [|d run]; [done|]. simpl.
    change (d :: run ++ rest) with ((d :: run) ++ rest).
    by rewrite match_here_digits.
  - apply Forall_cons in Hpre as [Hc Hpre]. simpl.
    unfold match_here at 1. simpl. rewrite Hc.
    rewrite (IH (S i)) by done. do 2 f_equal; lia.
Qed.

Lemma search_from_no_digit t : ∀ i,
  Forall (λ c, is_decimal c = false) t →
  search_from (Group 1 (Plus Digit)) i t = None.
Proof.
  induction t as [|c t IH]; intros i Ht; [done|].
  apply Forall_cons in Ht as [Hc Ht]. simpl. unfold match_here at 1. simpl.
  rewrite Hc. by apply IH.
Qed.

(** X1.  The area is the first run of digits of the text node containing
    "m²", taken whole, wherever in the node the "m²" stands; a node without
    a digit raises an [AttributeError], and a missing node a [TypeError]. *)
Theorem area_first_run :
  (∀ pre run rest,
     Forall (λ c, is_decimal c = false) pre →
     run ≠ [] → Forall (λ c, is_decimal c = true) run →
     (rest = [] ∨ ∃ c rest', rest = c :: rest' ∧ is_decimal c = false) →
     area (Some (pre ++ run ++ rest)) = Ok (VStr run))
  ∧ (∀ t, Forall (λ c, is_decimal c = false) t → area (Some t) = Raise AttributeError)
  ∧ area None = Raise TypeError.
Proof.
  split; [|split; [|done]].
  - intros pre run rest Hpre Hne Hrun Hrest. unfold area, area_regex. simpl.
    unfold search. by rewrite search_from_digits.
  - intros t Ht. unfold area, area_regex. simpl.
    unfold search. by rewrite search_from_no_digit.
Qed.

(** After the first offset [^] stops every attempt. *)
Lemma search_from_Bol r t : ∀ i, search_from (Seq Bol r) (S i) t = None.
Proof. induction t as [|c t IH]; intros i; simpl; [done|]. apply IH. Qed.

Lemma search_fullrooms_digits run rest :
  run ≠ [] → Forall (λ c, is_decimal c = true) run →
  (rest = [] ∨ ∃ c rest', rest = c :: rest' ∧ is_decimal c = false) →
  search fullrooms_regex (run ++ rest) = Some (Match 0 (length run) [(1, run)]).
Proof.
  intros Hne Hrun Hrest. destruct run as [|d run]; [done|].
  apply Forall_cons in Hrun as [Hd Hrun].
  unfold search, fullrooms_regex. simpl. unfold match_here. simpl. rewrite Hd.
  erewrite (greedy_longest Digit run 1 rest); [|done|done|done]. simpl.
  by rewrite take_app_length.
Qed.

Lemma search_fullrooms_other c t :
  is_decimal c = false → search fullrooms_regex (c :: t) = None.
Proof.
  intros Hc. unfold search, fullrooms_regex. simpl. unfold match_here at 1. simpl.
  rewrite Hc. apply search_from_Bol.
Qed.

(** X2.  The full rooms are the digits the "szoba" text begins with, taken
    whole; a text that begins with anything else, a space included, or is
    empty, gives 0. *)
Theorem fullrooms_leading_digits :
  (∀ run rest,
     run ≠ [] → Forall (λ c, is_decimal c = true) run →
     (rest = [] ∨ ∃ c rest', rest = c :: rest' ∧ is_decimal c = false) →
     fullrooms (Some (run ++ rest)) = Ok (VStr run))
  ∧ (∀ c t, is_decimal c = false → fullrooms (Some (c :: t)) = Ok (VInt 0))
  ∧ fullrooms (Some []) = Ok (VInt 0).
Proof.
  split; [|split; [|done]].
  - intros run rest Hne Hrun Hrest. unfold fullrooms. simpl.
    by rewrite search_fullrooms_digits.
  - intros c t Hc. unfold fullrooms. simpl. by rewrite search_fullrooms_other.
Qed.

End PatternFacts.

(** ** Numbers in a text: the price and the balcony *)

Section NumberFacts.
Context `{UnicodeData}.

(** Two runs of digits with at most one separator between them: the shape of
    "(\d+,?\d+)" and of "(\d+\.?\d+)". *)
Lemma denotes_two_runs sep i w gs :
  denotes (Group 1 (cat [Plus Digit; Opt (Lit sep); Plus Digit])) i w gs ↔
  gs = [(1, w)] ∧ ∃ d1 c d2, w = d1 ++ c ++ d2
    ∧ d1 ≠ [] ∧ Forall (λ x, is_decimal x = true) d1
    ∧ d2 ≠ [] ∧ Forall (λ x, is_decimal x = true) d2
    ∧ (c = [] ∨ c = [sep]).
Proof.
  split.
  - intros (gs' & Hd & ->).
    destruct Hd as (d1 & y1 & g1 & h1 & -> & (Hne1 & Hd1 & ->) & Hd & ->).
    destruct Hd as (c & y2 & g2 & h2 & -> & (Hc & ->) & Hd & ->).
    destruct Hd as (d2 & y3 & g3 & h3 & -> & (Hne2 & Hd2 & ->) & [-> ->] & ->).
    rewrite app_nil_r. split; [done|]. exists d1, c, d2. repeat split; try done.
    destruct Hc as [->|(x & -> & Hx%N.eqb_eq)]; subst; auto.
  - intros (-> & d1 & c & d2 & -> & Hne1 & Hd1 & Hne2 & Hd2 & Hc).
    exists []. split; [|done].
    exists d1, (c ++ d2), [], []. repeat split; try done.
    exists c, d2, [], []. repeat split; try done.
    + destruct Hc as [-> | ->]; [by left|right]. exists sep. simpl. by rewrite N.eqb_refl.
    + exists d2, [], [], []. by rewrite app_nil_r.
Qed.

Lemma filter_all (P : N → Prop) `{∀ x, Decision (P x)} l : Forall P l → filter P l = l.
Proof.
  induction 1 as [|x l Hx Hl IH]; [done|]. rewrite filter_cons_True by done. by f_equal.
Qed.

(** Such a text holds two digits at least. *)
Lemma two_runs_two_digits sep t :
  is_Some (search (Group 1 (cat [Plus Digit; Opt (Lit sep); Plus Digit])) t) →
  2 ≤ length (filter (λ x, is_decimal x = true) t).
Proof.
  intros [m (a & w & b & gs & -> & Hd & _)%search_Some].
  apply denotes_two_runs in Hd as (_ & d1 & c & d2 & -> & Hne1 & Hd1 & Hne2 & Hd2 & _).
  rewrite !filter_app, !length_app, (filter_all _ d1), (filter_all _ d2) by done.
  destruct d1, d2; simpl in *; try done; lia.
Qed.

Lemma few_digits_not_found sep t :
  length (filter (λ x, is_decimal x = true) t) ≤ 1 →
  search (Group 1 (cat [Plus Digit; Opt (Lit sep); Plus Digit])) t = None.
Proof.
  intros Hfew. destruct (search _ t) eqn:Hs; [|done].
  assert (2 ≤ length (filter (λ x, is_decimal x = true) t))
    by (eapply two_runs_two_digits; by rewrite Hs).
  lia.
Qed.

(** What is found is the group, and has the shape. *)
Lemma two_runs_found sep t m :
  search (Group 1 (cat [Plus Digit; Opt (Lit sep); Plus Digit])) t = Some m →
  ∃ d1 c d2, group 1 m = Some (d1 ++ c ++ d2)
    ∧ d1 ≠ [] ∧ Forall (λ x, is_decimal x = true) d1
    ∧ d2 ≠ [] ∧ Forall (λ x, is_decimal x = true) d2
    ∧ (c = [] ∨ c = [sep]).
Proof.
  intros (a & w & b & gs & -> & Hd & -> & _)%search_Some.
  apply denotes_two_runs in Hd as (-> & d1 & c & d2 & -> & Hrest).
  exists d1, c, d2. by split.
Qed.

(** A text of the shape is found in itself. *)
Lemma two_runs_again sep d1 c d2 :
  d1 ≠ [] → Forall (λ x, is_decimal x = true) d1 →
  d2 ≠ [] → Forall (λ x, is_decimal x = true) d2 →
  (c = [] ∨ c = [sep]) →
  is_Some (search (Group 1 (cat [Plus Digit; Opt (Lit sep); Plus Digit])) (d1 ++ c ++ d2)).
Proof.
  intros Hne1 Hd1 Hne2 Hd2 Hc.
  destruct (search _ (d1 ++ c ++ d2)) eqn:Hs; [done|]. exfalso.
  rewrite search_None in Hs.
  apply (Hs [] (d1 ++ c ++ d2) [] [(1, d1 ++ c ++ d2)]); [by rewrite app_nil_r|].
  apply denotes_two_runs. split; [done|]. by exists d1, c, d2.
Qed.

(** [replace] where the first character of [old] is not in the text, and
    [replace] of one character by another. *)
Lemma replace_absent (a : N) old new (s : list N) : a ∉ s → replace (a :: old) new s = s.
Proof.
  unfold replace. induction s as [|c s IH]; [done|].
  intros [Hne Hs]%not_elem_of_cons. simpl.
  destruct (N.eqb_spec a c) as [->|_]; [done|]. simpl. f_equal. by apply IH.
Qed.

Lemma replace_char a b s :
  replace [a] [b] s = (λ c, if N.eqb c a then b else c) <$> s.
Proof.
  unfold replace. induction s as [|c s IH]; [done|]. simpl.
  rewrite N.eqb_sym. destruct (N.eqb c a); simpl; by f_equal.
Qed.

Lemma decimals_without (x : N) (d : list N) :
  is_decimal x = false → Forall (λ c, is_decimal c = true) d → x ∉ d.
Proof. intros Hx Hd Hin. rewrite Forall_forall in Hd. apply Hd in Hin. congruence. Qed.

Lemma fmap_untouched (a b : N) (d : list N) :
  a ∉ d → (λ c, if N.eqb c a then b else c) <$> d = d.
Proof.
  induction d as [|c d IH]; [done|]. intros [Hne Hd]%not_elem_of_cons. simpl.
  destruct (N.eqb_spec c a) as [->|_]; [done|]. f_equal. by apply IH.
Qed.

(** X3.  A price that is written is two runs of digits with at most one
    period between them, never a comma or a space; a text node containing
    "Ft" with fewer than two digits raises an [AttributeError], as every
    node does in which the pattern is not found, and the row is lost. *)
Theorem price_shape t :
  (search price_regex t = None → price (Some t) = Raise AttributeError)
  ∧ (length (filter (λ x, is_decimal x = true) t) ≤ 1 →
       price (Some t) = Raise AttributeError)
  ∧ (is_Some (search price_regex t) →
       ∃ d1 sep d2, price (Some t) = Ok (VStr (d1 ++ sep ++ d2))
         ∧ d1 ≠ [] ∧ Forall (λ x, is_decimal x = true) d1
         ∧ d2 ≠ [] ∧ Forall (λ x, is_decimal x = true) d2
         ∧ (sep = [] ∨ sep = py ".")).
Proof.
  assert (search price_regex t = None → price (Some t) = Raise AttributeError) as Hnone.
  { intros Hs. unfold price. simpl. by rewrite Hs. }
  split; [done|]. split.
  - intros Hfew. apply Hnone. by apply few_digits_not_found.
  - intros [m Hm]. unfold price, re_search. cbn [mbind result_bind]. rewrite Hm.
    destruct (two_runs_found _ _ _ Hm) as (d1 & c & d2 & Hg & Hne1 & Hd1 & Hne2 & Hd2 & Hc).
    unfold group_of, deref. cbn [mbind result_bind]. rewrite Hg. cbn [mbind result_bind].
    assert (replace (py " Ft") [] (d1 ++ c ++ d2) = d1 ++ c ++ d2) as ->.
    { apply (replace_absent (ch " ") (py "Ft")).
      rewrite !elem_of_app. intros [Hin|[Hin|Hin]].
      - by apply (decimals_without (ch " ") d1).
      - destruct Hc as [-> | ->];
          [by apply elem_of_nil in Hin|by apply list_elem_of_singleton in Hin].
      - by apply (decimals_without (ch " ") d2). }
    destruct (two_runs_again (ch ",") d1 c d2) as [m' Hm']; try done.
    fold price_regex in Hm'. rewrite Hm'. cbn [mbind result_bind].
    destruct (two_runs_found _ _ _ Hm') as (e1 & c' & e2 & -> & He1 & Hde1 & He2 & Hde2 & Hc').
    cbn [mbind result_bind].
    assert (replace (py ",") (py ".") (e1 ++ c' ++ e2)
            = e1 ++ ((λ x, if N.eqb x (ch ",") then ch "." else x) <$> c') ++ e2) as ->.
    { change (py ",") with [ch ","]. change (py ".") with [ch "."].
      rewrite replace_char, !fmap_app.
      by rewrite (fmap_untouched _ _ e1), (fmap_untouched _ _ e2)
        by (by apply decimals_without). }
    eexists e1, _, e2. repeat split; try done. destruct Hc' as [-> | ->]; auto.
Qed.

(** X4.  The balcony is the one attribute whose value is searched: a value
    cell without a text of its own raises a [TypeError] there and the row is
    lost, where any other attribute is left empty; a text in which the
    pattern is not found gives 0, and such is every text with one digit or
    none, so that "5 m²" is written as 0; a text in which it is found gives
    two runs of digits with at most one period between them. *)
Theorem balcony_value td :
  (td_hops td = None → branch balcony td = Raise AttributeError)
  ∧ (td_hops td = Some None →
       branch balcony td = Raise TypeError
       ∧ ∀ a, a ≠ balcony → branch a td = Ok VNone)
  ∧ (∀ v, td_hops td = Some (Some v) →
       (search bal_regex v = None → branch balcony td = Ok (VInt 0))
       ∧ (length (filter (λ x, is_decimal x = true) v) ≤ 1 →
            search bal_regex v = None)
       ∧ (is_Some (search bal_regex v) →
            ∃ d1 sep d2, branch balcony td = Ok (VStr (d1 ++ sep ++ d2))
              ∧ d1 ≠ [] ∧ Forall (λ x, is_decimal x = true) d1
              ∧ d2 ≠ [] ∧ Forall (λ x, is_decimal x = true) d2
              ∧ (sep = [] ∨ sep = py "."))).
Proof.
  unfold branch. split; [by intros ->|]. split.
  - intros ->. split; [done|]. by intros [].
  - intros v ->. simpl. split; [|split].
    + by intros ->.
    + intros Hfew. by apply few_digits_not_found.
    + intros [m Hm]. rewrite Hm.
      destruct (two_runs_found _ _ _ Hm) as (d1 & c & d2 & -> & Hrest).
      by exists d1, c, d2.
Qed.

End NumberFacts.

(** ** The other fields of a row *)

Section FieldFacts.
Context `{UnicodeData}.

(** The two groups of the half-room pattern. *)
Lemma halfrooms_groups t m :
  search halfrooms_regex t = Some m →
  ∃ w1 w2, group 1 m = Some w1 ∧ group 2 m = Some w2
    ∧ (w1 = [] ∨ ∃ c, w1 = [c] ∧ is_space c = true)
    ∧ (w2 = [] ∨ ∃ d, w2 = [d] ∧ is_decimal d = true).
Proof.
  intros (a & w & b & gs & -> & Hd & -> & _)%search_Some.
  destruct Hd as (x0 & y0 & g0 & h0 & -> & [-> ->]%denotes_word & Hd & ->).
  destruct Hd as (w1 & y1 & g1 & h1 & -> & (? & [Hw1 ->] & ->) & Hd & ->).
  destruct Hd as (w2 & y2 & g2 & h2 & -> & (? & [Hw2 ->] & ->) & Hd & ->).
  destruct Hd as (w3 & y3 & g3 & h3 & -> & (_ & _ & ->) & Hd & ->).
  destruct Hd as (w4 & y4 & g4 & h4 & -> & [_ ->]%denotes_word & [-> ->] & ->).
  by exists w1, w2.
Qed.

(** X5.  On a "szoba" text the half rooms never raise, and they are one of
    four things: the number 0, the number 1, one digit as a string, or the
    empty string (a "+" followed by a whitespace and no digit). *)
Theorem halfrooms_values t :
  ∃ v, halfrooms (Some t) = Ok v
    ∧ (v = VInt 0 ∨ v = VInt 1 ∨ v = VStr []
       ∨ ∃ d, v = VStr [d] ∧ is_decimal d = true).
Proof.
  unfold halfrooms, re_search. cbn [mbind result_bind].
  destruct (search halfrooms_regex t) as [m|] eqn:Hm; [|eauto].
  destruct (halfrooms_groups _ _ Hm) as (w1 & w2 & -> & -> & Hw1 & Hw2).
  destruct Hw1 as [->|(c & -> & _)].
  - rewrite bool_decide_eq_true_2 by done. eauto.
  - rewrite bool_decide_eq_false_2 by done. simpl.
    destruct Hw2 as [->|(d & -> & Hd)]; eauto 10.
Qed.

(** The patterns of the two coordinates. *)
Lemma lat_found coord m :
  search lat_regex coord = Some m →
  ∃ ds, group 1 m = Some (py "47." ++ ds) ∧ ds ≠ []
    ∧ Forall (λ x, is_decimal x = true) ds
    ∧ contains (py "47." ++ ds ++ py ",") coord.
Proof.
  intros (a & w & b & gs & -> & Hd & -> & _)%search_Some.
  destruct Hd as (w1 & y1 & g1 & h1 & -> & (gs' & Hg & ->) & Hd & ->).
  destruct Hg as (x0 & ds & g0 & h0 & -> & [-> ->]%denotes_word & Hds & ->).
  destruct Hds as (ds' & y2 & g2 & h2 & -> & (Hne & Hds & ->) & [-> ->] & ->).
  destruct Hd as (w2 & y3 & g3 & h3 & -> & [-> ->]%denotes_word & [-> ->] & ->).
  exists ds'. rewrite ?app_nil_r. repeat split; try done.
  exists a, b. by rewrite <- !(assoc_L (++)).
Qed.

Lemma long_found coord m :
  search long_regex coord = Some m →
  ∃ ds, group 1 m = Some (py "19." ++ ds) ∧ ds ≠ []
    ∧ Forall (λ x, is_decimal x = true) ds
    ∧ contains (py "19." ++ ds) coord.
Proof.
  intros (a & w & b & gs & -> & Hd & -> & _)%search_Some.
  destruct Hd as (gs' & Hg & ->).
  destruct Hg as (x0 & ds & g0 & h0 & -> & [-> ->]%denotes_word & Hds & ->).
  destruct Hds as (ds' & y2 & g2 & h2 & -> & (Hne & Hds & ->) & [-> ->] & ->).
  exists ds'. rewrite ?app_nil_r. repeat split; try done. by exists a, b.
Qed.

(** X6.  In every row that is written the latitude is "47." and digits and
    the longitude "19." and digits, read from the printed tags whose [src]
    contains "center"; the latitude is one that a comma follows there. *)
Theorem coordinates_of_a_row soup row :
  extract soup = Ok row →
  ∃ la lo,
    row !! 14 = Some (VStr (py "47." ++ la)) ∧ row !! 15 = Some (VStr (py "19." ++ lo))
    ∧ la ≠ [] ∧ Forall (λ x, is_decimal x = true) la
    ∧ lo ≠ [] ∧ Forall (λ x, is_decimal x = true) lo
    ∧ contains (py "47." ++ la ++ py ",") (str_find_all_src (lit "center") soup)
    ∧ contains (py "19." ++ lo) (str_find_all_src (lit "center") soup).
Proof.
  intros (raw & title & t & p & a & fr & hr & la & lo & l & e & _ & _ & _
          & _ & _ & _ & _ & Hla & Hlo & _ & _ & ->)%extract_Ok.
  unfold lat, long, group_of, deref in *. cbn [mbind result_bind] in *.
  destruct (search lat_regex _) as [m|] eqn:Hm; [|done].
  destruct (search long_regex _) as [m'|] eqn:Hm'; [|done].
  destruct (lat_found _ _ Hm) as (ds & Hg & Hne & Hds & Hin).
  destruct (long_found _ _ Hm') as (ds' & Hg' & Hne' & Hds' & Hin').
  cbn [mbind result_bind] in *. rewrite Hg in Hla. rewrite Hg' in Hlo.
  injection Hla as <-. injection Hlo as <-. by exists ds, ds'.
Qed.

(** The printed list of no tag. *)
Lemma str_find_all_src_none r soup :
  Forall (λ t, matched (search r t.1) = false) (src_tags soup) →
  str_find_all_src r soup = py "[]".
Proof.
  unfold str_find_all_src. intros Hno.
  assert (filter (λ t, matched (search r t.1) = true) (src_tags soup) = []) as ->; [|done].
  induction Hno as [|x l Hx Hl IH]; [done|].
  rewrite filter_cons_False by congruence. done.
Qed.

(** X7.  A page on which no element has a [src] containing "center" gives
    no row: the search for the latitude finds nothing in the printed empty
    list and the extraction raises. *)
Theorem no_map_no_row soup :
  Forall (λ t, ¬ contains (py "center") t.1) (src_tags soup) →
  ∃ e, extract soup = Raise e.
Proof.
  intros Hno. destruct (extract soup) as [row|e] eqn:Hx; [exfalso|eauto].
  apply extract_Ok in Hx
    as (raw & title & t & p & a & fr & hr & la & lo & l & e & _ & _ & _
        & _ & _ & _ & _ & Hla & _).
  rewrite str_find_all_src_none in Hla; [done|].
  eapply Forall_impl; [exact Hno|]. intros x Hx. simpl in Hx.
  destruct (matched (search (lit "center") x.1)) eqn:Hm; [|done].
  by apply matched_word in Hm.
Qed.

(** The patterns of the description. *)
Lemma district_found meta m :
  search district_regex meta = Some m →
  ∃ ds ws, group 1 m = Some (ds ++ py "." ++ [ws] ++ py "ker") ∧ ds ≠ []
    ∧ Forall (λ x, is_decimal x = true) ds ∧ is_space ws = true.
Proof.
  intros (a & w & b & gs & -> & Hd & -> & _)%search_Some.
  destruct Hd as (w1 & y1 & g1 & h1 & -> & (gs' & Hg & ->) & Hd & ->).
  destruct Hd as (x6 & y6 & g6 & h6 & -> & [_ ->] & Hd & ->).
  destruct Hd as (x7 & y7 & g7 & h7 & -> & [_ ->]%denotes_word & [-> ->] & ->).
  destruct Hg as (ds & y2 & g2 & h2 & -> & (Hne & Hds & ->) & Hg & ->).
  destruct Hg as (x3 & y3 & g3 & h3 & -> & [-> ->]%denotes_word & Hg & ->).
  destruct Hg as (x4 & y4 & g4 & h4 & -> & [(ws & -> & Hws) ->] & Hg & ->).
  destruct Hg as (x5 & y5 & g5 & h5 & -> & [-> ->]%denotes_word & [-> ->] & ->).
  exists ds, ws. by rewrite ?app_nil_r.
Qed.

Lemma varos_found meta m :
  search varos_regex meta = Some m →
  ∃ c v, group 1 m = Some (c :: v) ∧ (ch "A" ≤ c ≤ ch "Z")%N ∧ v ≠ []
    ∧ contains (py "(" ++ c :: v ++ py ")") meta.
Proof.
  intros (a & w & b & gs & -> & Hd & -> & _)%search_Some.
  destruct Hd as (x0 & y0 & g0 & h0 & -> & [-> ->]%denotes_word & Hd & ->).
  destruct Hd as (w1 & y1 & g1 & h1 & -> & (gs' & Hg & ->) & Hd & ->).
  destruct Hg as (x2 & v & g2 & h2 & -> & [(c & -> & Hc) ->] & Hv & ->).
  destruct Hv as (v' & y3 & g3 & h3 & -> & (Hne & _ & ->) & [-> ->] & ->).
  destruct Hd as (x4 & y4 & g4 & h4 & -> & [-> ->]%denotes_word & [-> ->] & ->).
  exists c, v'. rewrite ?app_nil_r. simpl in Hc.
  apply andb_true_iff in Hc as [?%N.leb_le ?%N.leb_le].
  repeat split; try done. exists a, b. simpl. by rewrite <- !(assoc_L (++)).
Qed.

(** X8.  The district of a written row is empty or a run of digits, a
    period, one whitespace character and "ker", the rest of the word left
    out; the city area is empty or begins with a capital from A to Z and
    stood between brackets in the description. *)
Theorem district_and_varos_shape soup row :
  extract soup = Ok row →
  (row !! 6 = Some (VStr [])
   ∨ ∃ ds ws, row !! 6 = Some (VStr (ds ++ py "." ++ [ws] ++ py "ker")) ∧ ds ≠ []
       ∧ Forall (λ x, is_decimal x = true) ds ∧ is_space ws = true)
  ∧ (row !! 7 = Some (VStr [])
     ∨ ∃ raw c v, metas soup !! 4 = Some (Some raw)
         ∧ row !! 7 = Some (VStr (c :: v)) ∧ (ch "A" ≤ c ≤ ch "Z")%N ∧ v ≠ []
         ∧ contains (py "(" ++ c :: v ++ py ")") (replace newline [] raw)).
Proof.
  intros (raw & title & t & p & a & fr & hr & la & lo & l & e & Hmeta & _ & _
          & _ & _ & _ & _ & _ & _ & _ & _ & ->)%extract_Ok.
  split.
  - unfold district. destruct (search district_regex _) as [m|] eqn:Hm; [|by left].
    destruct (district_found _ _ Hm) as (ds & ws & -> & Hrest). right. by exists ds, ws.
  - unfold varos. destruct (search varos_regex _) as [m|] eqn:Hm; [|by left].
    destruct (varos_found _ _ Hm) as (c & v & -> & Hrest). right. by exists raw, c, v.
Qed.

(** X9.  A page with fewer than five [meta] tags raises an [IndexError], one
    whose fifth has no [content] a [KeyError], and one without a title, or
    with a title that has no text of its own, an [AttributeError]. *)
Theorem missing_meta_or_title soup :
  (length (metas soup) ≤ 4 → extract soup = Raise IndexError)
  ∧ (metas soup !! 4 = Some None → extract soup = Raise KeyError)
  ∧ (∀ raw, metas soup !! 4 = Some (Some raw) →
       title_tag soup = None ∨ title_tag soup = Some None →
       extract soup = Raise AttributeError).
Proof.
  unfold extract. split; [|split].
  - intros Hlen. by rewrite lookup_ge_None_2.
  - by intros ->.
  - by intros raw -> [-> | ->].
Qed.

End FieldFacts.

(** ** The loops of the extractor *)

Section LoopFacts.
Context `{UnicodeData}.

Section Rows.
Variable web : str → result Soup.

Lemma loop_rows urls : ∀ st,
  let rows := omap (row_of web) urls in
  out_file (foldl (iteration web) st urls) = out_file st ++ rows
  ∧ count (foldl (iteration web) st urls) = count st + length rows.
Proof.
  induction urls as [|url urls IH]; intros st; simpl.
  - by rewrite app_nil_r, Nat.add_0_r.
  - destruct (IH (iteration web st url)) as [-> ->].
    destruct (raises web url) eqn:Hr.
    + destruct (iteration_raises web st url Hr) as (-> & _ & ->).
      unfold raises in Hr. unfold row_of. by destruct (web url ≫= extract).
    + destruct (iteration_returns web st url Hr) as (row & Hrow & -> & _ & ->).
      unfold row_of. rewrite Hrow, <- (assoc_L (++)). simpl. split; [done|].
      symmetry. apply Nat.add_succ_r.
Qed.

(** X10.  The rows of the output file are those of the urls on which
    nothing raises, in the order of the urls; and the counter shown as the
    iteration ends one above the number of rows written, not of urls read. *)
Theorem rows_in_order urls :
  out_file (main web urls) = omap (row_of web) urls
  ∧ count (main web urls) = S (length (out_file (main web urls))).
Proof.
  unfold main. simpl. by destruct (loop_rows urls start) as [-> ->].
Qed.

End Rows.

(** Each label is that of one branch of the chain. *)
Lemma chain_finds a :
  List.find (λ b, bool_decide (Some (label a) = Some (label b))) chain = Some a.
Proof. by destruct a; vm_compute. Qed.

Lemma td_step_label e td a :
  td_string td = Some (label a) →
  td_step e td = branch a td ≫= λ v, Ok (assign a v e).
Proof. intros Ha. unfold td_step. by rewrite Ha, chain_finds. Qed.

Lemma td_loop_app l1 l2 e :
  td_loop e (l1 ++ l2) = td_loop e l1 ≫= λ e1, td_loop e1 l2.
Proof.
  revert e. induction l1 as [|td l1 IH]; intros e; simpl; [done|].
  destruct (td_step e td); simpl; [apply IH|done].
Qed.

(** X11.  Of the cells that hold the label of an attribute, the last one
    decides: the attribute is written as the branch of that cell gives it. *)
Theorem last_label_cell_wins l1 td l2 a e :
  td_loop no_attrs (l1 ++ td :: l2) = Ok e →
  td_string td = Some (label a) →
  Forall (λ td', td_string td' ≠ Some (label a)) l2 →
  branch a td = Ok (e a).
Proof.
  rewrite td_loop_app. intros (e1 & _ & Hloop)%bind_Ok Ha Hl2. simpl in Hloop.
  apply bind_Ok in Hloop as (e2 & Hstep & Hloop).
  rewrite (td_step_label _ _ _ Ha) in Hstep.
  apply bind_Ok in Hstep as (v & -> & [= <-]).
  rewrite (td_loop_other _ _ _ a Hloop Hl2). unfold assign. by rewrite decide_True.
Qed.

Lemma td_loop_hops l : ∀ e0 e td a,
  td_loop e0 l = Ok e → td ∈ l → td_string td = Some (label a) →
  is_Some (td_hops td).
Proof.
  induction l as [|td' l IH]; intros e0 e td a; simpl; [by intros _ ?%elem_of_nil|].
  intros (e1 & Hstep & Hloop)%bind_Ok [->|Hin]%elem_of_cons Ha; [|by eapply IH].
  rewrite (td_step_label _ _ _ Ha) in Hstep.
  apply bind_Ok in Hstep as (v & Hb & _). unfold branch in Hb.
  by destruct (td_hops td').
Qed.

(** X12.  A cell with the label of an attribute from which three hops lead
    out of the document gives no row: the extraction raises. *)
Theorem label_cell_without_value soup td a :
  td ∈ tds soup → td_string td = Some (label a) → td_hops td = None →
  ∃ e, extract soup = Raise e.
Proof.
  intros Hin Ha Hhops. destruct (extract soup) as [row|e] eqn:Hx; [exfalso|eauto].
  apply extract_Ok in Hx
    as (raw & title & t & p & ar & fr & hr & la & lo & l & e & _ & _ & _
        & _ & _ & _ & _ & _ & _ & _ & He & _).
  destruct (td_loop_hops _ _ _ _ _ He Hin Ha) as [v Hv]. congruence.
Qed.

End LoopFacts.

(** ** The loop of the collector *)

Section CollectorLoop.
Context `{UnicodeData}.
Import GetUrls.

(** The pattern of the listing number. *)
Lemma regex_found h m :
  search regex h = Some m →
  ∃ id, group 1 m = Some id ∧ id ≠ [] ∧ Forall (λ x, is_decimal x = true) id
    ∧ contains (py "/" ++ id) h.
Proof.
  intros (a & w & b & gs & -> & Hd & -> & _)%search_Some.
  destruct Hd as (x0 & y0 & g0 & h0 & -> & [-> ->]%denotes_word & Hd & ->).
  destruct Hd as (id & y1 & g1 & h1 & -> & (gs' & (Hne & Hid & ->) & ->) & Hd & ->).
  destruct Hd as (x2 & y2 & g2 & h2 & -> & [_ ->] & [-> ->] & ->).
  exists id. repeat split; try done.
  exists a, (x2 ++ b). by rewrite ?app_nil_r, <- !(assoc_L (++)).
Qed.

(** X13.  The url made of an [href] is the site followed by the digits that
    come after the first "/" with a digit behind it; an [href] with no such
    place raises an [AttributeError], and no other exception is raised. *)
Theorem href_shape h :
  (search regex h = None → href h = Raise AttributeError)
  ∧ (is_Some (search regex h) →
       ∃ id, href h = Ok (site ++ id) ∧ id ≠ []
         ∧ Forall (λ x, is_decimal x = true) id ∧ contains (py "/" ++ id) h).
Proof.
  split; [apply href_not_found|]. intros [m Hm].
  destruct (regex_found _ _ Hm) as (id & Hid & Hrest).
  exists id. split; [|done]. unfold href. by rewrite Hm; simpl; rewrite Hid.
Qed.

Lemma href_list_all tags_a :
  Forall (λ h, is_Some (search regex h)) tags_a → ∃ l, href_list tags_a = Ok l.
Proof.
  induction 1 as [|h tags_a [m Hm] _ [l IH]]; simpl; [by eexists|].
  destruct (href_found _ _ Hm) as (id & _ & ->). simpl. rewrite IH. by eexists.
Qed.

Section Run.
Variable web : str → result (list str).

Lemma pages_all todo : ∀ st,
  (∀ page tags_a h, page ∈ todo → web (page_url page) = Ok tags_a → h ∈ tags_a →
     is_Some (search regex h)) →
  ∃ st', pages web todo st = Finished st'
    ∧ out_file st' = out_file st ++ mjoin (rows_of_page web <$> todo)
    ∧ err_count st' = err_count st + length (filter (λ p, fetch_fails web p = true) todo).
Proof.
  induction todo as [|page todo IH]; intros st Hall; simpl.
  - exists st. by rewrite app_nil_r, Nat.add_0_r.
  - unfold rows_of_page at 1, fetch_fails at 1. destruct (web (page_url page)) as [tags_a|e] eqn:Hweb.
    + destruct (href_list_all tags_a) as [l Hl].
      { apply Forall_forall. intros h Hh. eapply Hall; [left|done|done]. }
      simpl. unfold page_urls. rewrite Hl. simpl.
      destruct (IH (foldl (λ st h, writerow [h] st)
                      (print (Url (page_url page)) st) (list_set l)))
        as (st' & -> & Hout & Herr).
      { intros ? ? ? ?. apply Hall. by right. }
      exists st'. split; [done|].
      destruct (out_file_writerows (list_set l) (print (Url (page_url page)) st))
        as [Ho He].
      rewrite Hout, Herr, Ho, He. simpl.
      rewrite filter_cons_False by (unfold fetch_fails; by rewrite Hweb).
      by rewrite <- (assoc_L (++)).
    + destruct (IH (handler (page_url page) (print (Url (page_url page)) st)))
        as (st' & -> & Hout & Herr).
      { intros ? ? ? ?. apply Hall. by right. }
      exists st'. split; [done|]. rewrite Hout, Herr. simpl.
      rewrite filter_cons_True by (unfold fetch_fails; by rewrite Hweb).
      simpl. split; [done|]. symmetry. apply Nat.add_succ_r.
Qed.

(** X14.  When the pattern is found in every [href] of every page that is
    fetched, the script runs to its end: the file holds the urls of the
    pages in the order of the pages, the error count is the number of pages
    that could not be fetched, and it is the last thing printed. *)
Theorem collect_all_found n :
  (∀ page tags_a h, 1 ≤ page ≤ n → web (page_url page) = Ok tags_a → h ∈ tags_a →
     is_Some (search regex h)) →
  ∃ st, collect web n = Finished st
    ∧ out_file st = mjoin (rows_of_page web <$> seq 1 n)
    ∧ err_count st = length (filter (λ page, fetch_fails web page = true) (seq 1 n))
    ∧ last (console st) = Some (ErrorCount (err_count st)).
Proof.
  intros Hall. unfold collect.
  destruct (pages_all (seq 1 n) start) as (st & -> & Hout & Herr).
  { intros page tags_a h Hpage. apply Hall. apply elem_of_seq in Hpage. lia. }
  eexists. split; [done|]. simpl. rewrite last_snoc. by rewrite Hout, Herr.
Qed.

(** X15.  The set is per page: a listing that two pages lead to is written
    once for each of them. *)
Theorem twice_on_two_pages n p q t1 t2 h1 h2 u :
  (∀ page tags_a h, 1 ≤ page ≤ n → web (page_url page) = Ok tags_a → h ∈ tags_a →
     is_Some (search regex h)) →
  1 ≤ p → p < q → q ≤ n →
  web (page_url p) = Ok t1 → h1 ∈ t1 → href h1 = Ok u →
  web (page_url q) = Ok t2 → h2 ∈ t2 → href h2 = Ok u →
  ∃ st, collect web n = Finished st
    ∧ 2 ≤ length (filter (λ row, row = [u]) (out_file st)).
Proof.
  intros Hall Hp Hpq Hq Hw1 Hh1 Hu1 Hw2 Hh2 Hu2. unfold collect.
  destruct (pages_all (seq 1 n) start) as (st & -> & Hout & _).
  { intros page tags_a h Hpage. apply Hall. apply elem_of_seq in Hpage. lia. }
  eexists. split; [done|]. simpl. rewrite Hout. simpl.
  assert (∀ page tags_a h, web (page_url page) = Ok tags_a → h ∈ tags_a →
            href h = Ok u → Forall (λ h, is_Some (search regex h)) tags_a →
            [u] ∈ rows_of_page web page) as Hrow.
  { intros page tags_a h Hw Hh Hu Hfound. unfold rows_of_page. rewrite Hw. simpl.
    destruct (href_list_all tags_a Hfound) as [l Hl].
    unfold page_urls. rewrite Hl. simpl.
    apply list_elem_of_fmap. exists u. split; [done|].
    unfold list_set. rewrite elem_of_elements, elem_of_list_to_set.
    apply (href_list_Ok _ _ Hl). eauto. }
  assert (∀ rows : list (list (list N)), [u] ∈ rows →
            1 ≤ length (filter (λ row, row = [u]) rows)) as Hone.
  { intros rows Hin. induction rows as [|r rows IH]; [by apply elem_of_nil in Hin|].
    apply elem_of_cons in Hin as [<-|Hin].
    - rewrite filter_cons_True by done. simpl. lia.
    - rewrite filter_cons. case_decide; simpl; [lia|by apply IH]. }
  assert (∀ page tags_a h i len, web (page_url page) = Ok tags_a → h ∈ tags_a →
            href h = Ok u → 1 ≤ page ≤ n → page ∈ seq i len →
            1 ≤ length (filter (λ row, row = [u]) (mjoin (rows_of_page web <$> seq i len))))
    as Hpart.
  { intros page tags_a h i len Hw Hh Hu Hpage Hin. apply Hone.
    apply list_elem_of_join. exists (rows_of_page web page). split.
    - eapply Hrow; try done. apply Forall_forall. intros h' Hh'. by eapply (Hall page).
    - by apply list_elem_of_fmap_2. }
  replace n with ((q - 1) + S (n - q)) at 1 by lia.
  rewrite seq_app, fmap_app, join_app, filter_app, length_app.
  pose proof (Hpart p t1 h1 1 (q - 1) Hw1 Hh1 Hu1) as H1.
  pose proof (Hpart q t2 h2 (1 + (q - 1)) (S (n - q)) Hw2 Hh2 Hu2) as H2.
  rewrite !elem_of_seq in H1, H2. specialize (H1 ltac:(lia) ltac:(lia)).
  specialize (H2 ltac:(lia) ltac:(lia)). lia.
Qed.

End Run.

End CollectorLoop.

(** ** What else a page must hold, and what a results page can add *)

Section LastFacts.
Context `{UnicodeData}.

(** X16.  A page without a text node containing "m²", or without one
    containing "szoba", gives no row: the search on the missing node raises. *)
Theorem missing_area_or_rooms soup :
  Forall (λ t, ¬ contains (py "m²") t) (strings soup)
  ∨ Forall (λ t, ¬ contains (py "szoba") t) (strings soup) →
  ∃ e, extract soup = Raise e.
Proof.
  intros Hno. destruct (extract soup) as [row|e] eqn:Hx; [exfalso|eauto].
  apply extract_Ok in Hx
    as (raw & title & t & p & a & fr & hr & la & lo & l & e & _ & _ & Ht
        & _ & Ha & _).
  destruct Hno as [Hno%find_text_None|Hno%find_text_None].
  - unfold lit in Ha. by rewrite Hno in Ha.
  - unfold lit in Ht. by rewrite Hno in Ht.
Qed.

Lemma href_list_length tags_a l :
  GetUrls.href_list tags_a = Ok l → length l = length tags_a.
Proof.
  revert l. induction tags_a as [|tag rest IH]; simpl; intros l.
  - by intros [= <-].
  - intros (u & _ & Hl)%bind_Ok. apply bind_Ok in Hl as (l' & Hl' & [= <-]).
    simpl. f_equal. by apply IH.
Qed.

(** X17.  A results page adds no more urls than it has anchors, one at
    least when it has an anchor, and as many as anchors when no two of them
    lead to the same listing. *)
Theorem page_urls_count tags_a urls :
  GetUrls.page_urls tags_a = Ok urls →
  length urls ≤ length tags_a
  ∧ (tags_a ≠ [] → urls ≠ [])
  ∧ (∀ l, GetUrls.href_list tags_a = Ok l → NoDup l → length urls = length tags_a).
Proof.
  unfold GetUrls.page_urls. intros (l & Hl & [= <-])%bind_Ok.
  rewrite <- (href_list_length _ _ Hl). unfold GetUrls.list_set.
  assert (∀ u, u ∈ elements (list_to_set l : gset (list N)) ↔ u ∈ l) as Hmem.
  { intros u. by rewrite elem_of_elements, elem_of_list_to_set. }
  split; [|split].
  - apply submseteq_length, NoDup_submseteq; [apply NoDup_elements|].
    intros u. by rewrite Hmem.
  - intros Hne Hnil. destruct l as [|u l].
    + apply href_list_length in Hl. by destruct tags_a.
    + assert (u ∈ elements (list_to_set (u :: l) : gset (list N))) as Hu
        by (apply Hmem; left).
      rewrite Hnil in Hu. by apply elem_of_nil in Hu.
  - intros l' Hl' Hnd. assert (l' = l) as -> by congruence.
    apply Nat.le_antisymm.
    + apply submseteq_length, NoDup_submseteq; [apply NoDup_elements|].
      intros u. by rewrite Hmem.
    + apply submseteq_length, NoDup_submseteq; [done|]. intros u. by rewrite Hmem.
Qed.

End LastFacts.

(** ** The theorems at work on the pages of [Fixtures] *)

(** The pages below hold no character above U+00FF in the texts the
    patterns read, so any tables do; they are run with [latin1_only]. *)
Import Fixtures.
#[local] Existing Instance latin1_only.

(** C1 fails as stated.  On a page whose first text node containing "Ft" is
    "31 900 000 Ft" the price written is "31", not "31900000"; and where it
    is "1,234,567 Ft" the price written is "1.234", not "1.234.567". *)
Lemma price_fixture_counterexample :
  first_with (contains (py "Ft")) (strings page_31900000) (py "31 900 000 Ft")
  ∧ cell 1 (extract page_31900000) = Some (VStr (py "31"))
  ∧ cell 1 (extract page_31900000) ≠ Some (VStr (py "31900000"))
  ∧ first_with (contains (py "Ft")) (strings page_1234567) (py "1,234,567 Ft")
  ∧ cell 1 (extract page_1234567) = Some (VStr (py "1.234"))
  ∧ cell 1 (extract page_1234567) ≠ Some (VStr (py "1.234.567")).
Proof.
  split; [apply find_text_Some; by vm_compute|].
  split; [by vm_compute|]. split; [by vm_compute|].
  split; [apply find_text_Some; by vm_compute|].
  split; by vm_compute.
Qed.

(** C1 (as amended) on the two pages. *)
Lemma price_and_area_fixtures_witness :
  cell 1 (extract page_31900000) = Some (VStr (py "31"))
  ∧ cell 1 (extract page_1234567) = Some (VStr (py "1.234"))
  ∧ cell 2 (extract page_31900000) = Some (VStr (py "55")).
Proof.
  assert (∃ row, extract page_31900000 = Ok row) as [row1 Hx1]
    by (eexists; vm_compute; reflexivity).
  assert (∃ row, extract page_1234567 = Ok row) as [row2 Hx2]
    by (eexists; vm_compute; reflexivity).
  destruct (price_and_area_fixtures _ _ Hx1) as (Hp1 & _ & Ha1).
  destruct (price_and_area_fixtures _ _ Hx2) as (_ & Hp2 & _).
  rewrite Hx1, Hx2. simpl.
  split; [|split]; [apply Hp1|apply Hp2|apply Ha1];
    apply find_text_Some; vm_compute; reflexivity.
Defined.

(** C3 on five urls, the third of which cannot be fetched: four rows, one
    error. *)
Lemma rows_and_errors_witness :
  length (out_file (main third_fails five_urls)) = 4
  ∧ err_count (main third_fails five_urls) = 1
  ∧ last (console (main third_fails five_urls)) = Some (NumberOfErrors 1).
Proof.
  apply (rows_and_errors third_fails five_urls 5 1); vm_compute; reflexivity.
Defined.

(** C4 on a page with "3 + 1 fél szoba". *)
Lemma room_parsing_witness :
  cell 4 (extract page_31_9) = Some (VStr (py "3"))
  ∧ cell 5 (extract page_31_9) = Some (VStr (py "1")).
Proof.
  assert (∃ row, extract page_31_9 = Ok row) as [row Hx]
    by (eexists; vm_compute; reflexivity).
  assert (first_with (contains (py "szoba")) (strings page_31_9) (py "3 + 1 fél szoba"))
    as Hfirst by (apply find_text_Some; vm_compute; reflexivity).
  destruct (room_parsing _ _ _ Hx Hfirst) as (H31 & _).
  rewrite Hx. simpl. apply H31. reflexivity.
Defined.

(** C5 on a page without a "Lift" row: 24 cells, the lift empty. *)
Lemma record_shape_witness :
  width (extract page_31_9) = Some 24
  ∧ cell (column lift) (extract page_31_9) = Some (VStr []).
Proof.
  assert (∃ row, extract page_31_9 = Ok row) as [row Hx]
    by (eexists; vm_compute; reflexivity).
  destruct (record_shape _ _ Hx) as (Hlen & _ & _ & _ & Hdefault & _).
  rewrite Hx. simpl. split; [by rewrite Hlen|].
  apply (Hdefault lift). vm_compute. repeat constructor; discriminate.
Defined.


(** C7 fails as stated.  In "5.kerület" the pattern of the claim, with
    [\s*], finds the district "5.ker"; the pattern of the script asks for one
    whitespace character after the period, finds nothing, and the district
    written is the empty string. *)
Lemma district_pattern_counterexample :
  metas page_no_space !! 4 = Some (Some (py "Eladó téglalakás, 5.kerület"))
  ∧ search district_regex_as_specified (py "Eladó téglalakás, 5.kerület") ≫= group 1
    = Some (py "5.ker")
  ∧ cell 6 (extract page_no_space) = Some (VStr [])
  ∧ cell 6 (extract page_no_space) ≠ Some (VStr (py "5.ker")).
Proof. split; [done|]. split; [by vm_compute|]. split; by vm_compute. Qed.

(** C7 (as amended) on a page whose description is
    "Eladó téglalakás, 6. kerület (Terézváros), Andrássy út". *)
Lemma meta_fields_witness :
  cell 6 (extract page_31_9) = Some (VStr (py "6. ker"))
  ∧ cell 7 (extract page_31_9) = Some (VStr (py "Terézváros"))
  ∧ cell 6 (extract page_no_space) = Some (VStr []).
Proof.
  assert (∃ row, extract page_31_9 = Ok row) as [row Hx]
    by (eexists; vm_compute; reflexivity).
  assert (∃ row, extract page_no_space = Ok row) as [row' Hx']
    by (eexists; vm_compute; reflexivity).
  destruct (meta_fields page_31_9 row description Hx eq_refl) as (Hd & _ & Hv & _).
  destruct (meta_fields page_no_space row' _ Hx' eq_refl) as (_ & Hnone & _).
  rewrite Hx, Hx'. simpl. split; [|split].
  - destruct (Hd (Match 18 28 [(1, py "6. ker")])) as (d & [= <-] & Hrow);
      [vm_compute; reflexivity|exact Hrow].
  - destruct (Hv (Match 29 41 [(1, py "Terézváros")])) as (v & [= <-] & Hrow);
      [vm_compute; reflexivity|exact Hrow].
  - apply Hnone. vm_compute. reflexivity.
Defined.

(** C9 fails as stated.  On a page whose title holds "szoba" the title is
    the first text node containing it, and the title is what the fourth cell
    of the row holds. *)
Lemma title_in_the_row_counterexample :
  title_is_text page_title_rooms
  ∧ title_tag page_title_rooms = Some (Some (py "Eladó lakás, 3 szoba - Andrássy út"))
  ∧ cell 3 (extract page_title_rooms)
    = Some (VStr (py "Eladó lakás, 3 szoba - Andrássy út")).
Proof.
  split; [|split; [done|by vm_compute]].
  intros t Ht. vm_compute in Ht. injection Ht as <-.
  apply list_elem_of_In. vm_compute. left. reflexivity.
Qed.

(** C9 (as amended) on a page with "3 + 1 fél szoba", and on the same text
    nodes with the title element around the second of them. *)
Lemma rooms_text_and_title_witness :
  cell 3 (extract page_31_9) = Some (VStr (py "3 + 1 fél szoba"))
  ∧ extract page_other_title = extract page_31_9.
Proof.
  assert (∃ row, extract page_31_9 = Ok row) as [row Hx]
    by (eexists; vm_compute; reflexivity).
  destruct (rooms_text_and_title _ _ Hx) as (_ & _ & Hsame).
  split; [vm_compute; reflexivity|].
  rewrite Hx. apply (Hsame page_other_title (py "Andrássy út")); try reflexivity.
  intros t Ht. vm_compute in Ht. injection Ht as <-.
  apply list_elem_of_In. vm_compute. right. left. reflexivity.
Defined.



(** C2 fails as stated.  On two results pages, the first with an [href]
    the pattern is not found in, the script stops at the first page with
    no error counted and nothing written; handled as the claim says, the
    error would be counted and the url of the second page written. *)
Lemma unmatched_href_counterexample :
  GetUrls.collect bad_href 2
    = GetUrls.Uncaught AttributeError
        {| GetUrls.out_file := []; GetUrls.err_count := 0;
           GetUrls.console := [GetUrls.Url (GetUrls.page_url 1)] |}
  ∧ GetUrls.collect_as_specified bad_href 2
    = GetUrls.Finished
        {| GetUrls.out_file := [[py "http://ingatlan.com/22334466"]];
           GetUrls.err_count := 1;
           GetUrls.console :=
             [GetUrls.Url (GetUrls.page_url 1); GetUrls.ErrorWith (GetUrls.page_url 1);
              GetUrls.Url (GetUrls.page_url 2); GetUrls.ErrorCount 1] |}
  ∧ GetUrls.collect bad_href 2 ≠ GetUrls.collect_as_specified bad_href 2.
Proof. split; [by vm_compute|]. split; by vm_compute. Qed.

(** C2 (as amended) on the same two pages. *)
Lemma unmatched_href_witness :
  GetUrls.collect bad_href 2
    = GetUrls.Uncaught AttributeError
        (GetUrls.print (GetUrls.Url (GetUrls.page_url 1)) GetUrls.start).
Proof.
  apply (unmatched_href_stops_the_run bad_href 2 1
           [py "/elado/22334455"; py "javascript:void(0)"] (py "javascript:void(0)")).
  - lia.
  - reflexivity.
  - vm_compute. reflexivity.
  - apply list_elem_of_In. simpl. auto.
  - vm_compute. reflexivity.
Defined.

(** C8 on a page where the first and the third anchor lead to listing
    22334455: its url is written once. *)
Lemma page_urls_once_witness :
  ∃ urls, GetUrls.page_urls twice = Ok urls
    ∧ length urls = 2
    ∧ length (filter (λ u, u = py "http://ingatlan.com/22334455") urls) = 1.
Proof.
  assert (∃ urls, GetUrls.page_urls twice = Ok urls) as [urls Hurls]
    by (eexists; vm_compute; reflexivity).
  exists urls. split; [done|].
  destruct (page_urls_once twice urls Hurls) as (_ & _ & Honce & _).
  split.
  - vm_compute in Hurls. by injection Hurls as <-.
  - apply (Honce 0 2 (py "/elado/22334455") (py "/elado/22334455#map") (py "22334455"));
      [lia|reflexivity|reflexivity|vm_compute; reflexivity|vm_compute; reflexivity].
Defined.

(** X1 on "Alapterület 55 m²" and on "2 szoba, 55 m²", where the first
    digits are not the area. *)
Lemma area_first_run_witness :
  area (Some (py "Alapterület 55 m²")) = Ok (VStr (py "55"))
  ∧ area (Some (py "2 szoba, 55 m²")) = Ok (VStr (py "2"))
  ∧ area (Some (py "m²")) = Raise AttributeError.
Proof.
  destruct area_first_run as (Hrun & Hnone & _).
  split; [|split].
  - apply (Hrun (py "Alapterület ") (py "55") (py " m²")).
    + vm_compute. repeat constructor.
    + done.
    + vm_compute. repeat constructor.
    + right. by eexists _, _.
  - apply (Hrun [] (py "2") (py " szoba, 55 m²")).
    + constructor.
    + done.
    + vm_compute. repeat constructor.
    + right. by eexists _, _.
  - apply (Hnone (py "m²")). vm_compute. repeat constructor.
Defined.

(** X2 on "12 szoba" and on " 3 szoba". *)
Lemma fullrooms_leading_digits_witness :
  fullrooms (Some (py "12 szoba")) = Ok (VStr (py "12"))
  ∧ fullrooms (Some (py " 3 szoba")) = Ok (VInt 0).
Proof.
  destruct fullrooms_leading_digits as (Hrun & Hother & _).
  split.
  - apply (Hrun (py "12") (py " szoba")).
    + done.
    + vm_compute. repeat constructor.
    + right. by eexists _, _.
  - apply (Hother (ch " ") (py "3 szoba")). reflexivity.
Defined.

(** X3 on "31,9 M Ft" and on "5 Ft". *)
Lemma price_shape_witness :
  price (Some (py "5 Ft")) = Raise AttributeError
  ∧ ∃ d1 sep d2, price (Some (py "31,9 M Ft")) = Ok (VStr (d1 ++ sep ++ d2))
      ∧ (sep = [] ∨ sep = py ".").
Proof.
  split.
  - apply (price_shape (py "5 Ft")). vm_compute. lia.
  - destruct (price_shape (py "31,9 M Ft")) as (_ & _ & Hshape).
    destruct Hshape as (d1 & sep & d2 & Hp & _ & _ & _ & _ & Hsep);
      [eexists; vm_compute; reflexivity|].
    by exists d1, sep, d2.
Defined.

(** X4 on the value cells "5 m²" and "5,5 m²", and on one without a text. *)
Lemma balcony_value_witness :
  branch balcony {| td_string := Some (py "Erkély"); td_hops := Some (Some (py "5 m²")) |}
    = Ok (VInt 0)
  ∧ branch balcony {| td_string := Some (py "Erkély"); td_hops := Some (Some (py "5,5 m²")) |}
    = Ok (VInt 0)
  ∧ branch balcony {| td_string := Some (py "Erkély"); td_hops := Some None |}
    = Raise TypeError
  ∧ branch lift {| td_string := Some (py "Lift"); td_hops := Some None |} = Ok VNone.
Proof.
  split; [|split; [|split]].
  - destruct (balcony_value
        {| td_string := Some (py "Erkély"); td_hops := Some (Some (py "5 m²")) |})
      as (_ & _ & Hv).
    destruct (Hv (py "5 m²") eq_refl) as (Hnone & Hfew & _).
    apply Hnone, Hfew. vm_compute. lia.
  - destruct (balcony_value
        {| td_string := Some (py "Erkély"); td_hops := Some (Some (py "5,5 m²")) |})
      as (_ & _ & Hv).
    destruct (Hv (py "5,5 m²") eq_refl) as (Hnone & _).
    apply Hnone. vm_compute. reflexivity.
  - destruct (balcony_value {| td_string := Some (py "Erkély"); td_hops := Some None |})
      as (_ & Hnone & _).
    by destruct (Hnone eq_refl).
  - destruct (balcony_value {| td_string := Some (py "Lift"); td_hops := Some None |})
      as (_ & Hnone & _).
    destruct (Hnone eq_refl) as [_ Hother]. by apply Hother.
Defined.

(** X6 on a page whose map is centred on 47.5051,19.0631. *)
Lemma coordinates_of_a_row_witness :
  ∃ la lo, cell 14 (extract page_31_9) = Some (VStr (py "47." ++ la))
    ∧ cell 15 (extract page_31_9) = Some (VStr (py "19." ++ lo)).
Proof.
  assert (∃ row, extract page_31_9 = Ok row) as [row Hx]
    by (eexists; vm_compute; reflexivity).
  destruct (coordinates_of_a_row _ _ Hx) as (la & lo & Hla & Hlo & _).
  exists la, lo. by rewrite Hx.
Defined.

(** X7 on the same page without its map. *)
Lemma no_map_no_row_witness : ∃ e, extract page_no_map = Raise e.
Proof.
  apply no_map_no_row. apply Forall_cons. split; [|constructor].
  intros Hc. apply matched_word in Hc. by vm_compute in Hc.
Defined.

(** X8 on a page described as "Eladó téglalakás, 6. kerület (Terézváros), ...". *)
Lemma district_and_varos_shape_witness :
  (cell 6 (extract page_31_9) = Some (VStr [])
   ∨ ∃ ds ws, cell 6 (extract page_31_9) = Some (VStr (ds ++ py "." ++ [ws] ++ py "ker")))
  ∧ cell 6 (extract page_31_9) = Some (VStr (py "6. ker")).
Proof.
  assert (∃ row, extract page_31_9 = Ok row) as [row Hx]
    by (eexists; vm_compute; reflexivity).
  destruct (district_and_varos_shape _ _ Hx) as [Hd _].
  split; [|by vm_compute]. rewrite Hx. simpl.
  destruct Hd as [Hd|(ds & ws & Hd & _)]; [by left|right; by exists ds, ws].
Defined.

(** X9 on the same page without its title. *)
Lemma missing_meta_or_title_witness : extract page_no_title = Raise AttributeError.
Proof.
  destruct (missing_meta_or_title page_no_title) as (_ & _ & Htitle).
  apply (Htitle description); [reflexivity|by left].
Defined.

(** X11 on a table with two "Lift" rows: the second is written. *)
Lemma last_label_cell_wins_witness :
  ∃ e, td_loop no_attrs lift_twice = Ok e ∧ e lift = VStr (py "van").
Proof.
  assert (∃ e, td_loop no_attrs lift_twice = Ok e) as [e He]
    by (eexists; vm_compute; reflexivity).
  exists e. split; [done|].
  pose proof (last_label_cell_wins (table_row (py "Lift") (py "nincs"))
                {| td_string := Some (py "Lift"); td_hops := Some (Some (py "van")) |}
                [ {| td_string := Some (py "van"); td_hops := Some None |} ]
                lift e He eq_refl) as Hlast.
  assert (Ok (VStr (py "van")) = Ok (e lift)) as Heq.
  { apply Hlast. repeat constructor. by vm_compute. }
  by injection Heq as <-.
Defined.

(** X12 on a page that ends with the label "Komfort". *)
Lemma label_cell_without_value_witness : ∃ e, extract page_label_at_end = Raise e.
Proof.
  apply (label_cell_without_value page_label_at_end
           {| td_string := Some (py "Komfort"); td_hops := None |} utility).
  - apply list_elem_of_In. simpl. auto 10.
  - reflexivity.
  - reflexivity.
Defined.

(** X13 on an [href] with a fragment and on one without a number. *)
Lemma href_shape_witness :
  (∃ id, GetUrls.href (py "/elado/22334455#map") = Ok (GetUrls.site ++ id) ∧ id ≠ [])
  ∧ GetUrls.href (py "javascript:void(0)") = Raise AttributeError.
Proof.
  split.
  - destruct (href_shape (py "/elado/22334455#map")) as [_ Hfound].
    destruct Hfound as (id & Hid & Hne & _); [eexists; vm_compute; reflexivity|].
    by exists id.
  - apply (href_shape (py "javascript:void(0)")). vm_compute. reflexivity.
Defined.

(** On the three pages the pattern is found in every [href]. *)
Lemma three_pages_found page tags_a h :
  1 ≤ page ≤ 3 → three_pages (GetUrls.page_url page) = Ok tags_a → h ∈ tags_a →
  is_Some (search GetUrls.regex h).
Proof.
  intros Hpage Hweb Hh.
  assert (page = 1 ∨ page = 2 ∨ page = 3) as [-> | [-> | ->]] by lia;
    vm_compute in Hweb; [|done|]; injection Hweb as <-;
    repeat (apply elem_of_cons in Hh as [->|Hh]; [eexists; vm_compute; reflexivity|]);
    by apply elem_of_nil in Hh.
Defined.

(** X14 on three pages, the second of which cannot be fetched. *)
Lemma collect_all_found_witness :
  ∃ st, GetUrls.collect three_pages 3 = GetUrls.Finished st
    ∧ GetUrls.out_file st = mjoin (rows_of_page three_pages <$> seq 1 3)
    ∧ GetUrls.err_count st = 1.
Proof.
  destruct (collect_all_found three_pages 3 three_pages_found)
    as (st & Hst & Hout & Herr & _).
  exists st. split; [done|]. split; [done|]. rewrite Herr. by vm_compute.
Defined.

(** X15 on the same pages: listing 22334455 is on the first and the third. *)
Lemma twice_on_two_pages_witness :
  ∃ st, GetUrls.collect three_pages 3 = GetUrls.Finished st
    ∧ 2 ≤ length (filter (λ row, row = [py "http://ingatlan.com/22334455"])
                    (GetUrls.out_file st)).
Proof.
  apply (twice_on_two_pages three_pages 3 1 3 twice [py "/elado/22334455"]
           (py "/elado/22334455") (py "/elado/22334455")
           (py "http://ingatlan.com/22334455") three_pages_found);
    try lia; try (vm_compute; reflexivity).
  - apply list_elem_of_In. simpl. auto.
  - apply list_elem_of_In. simpl. auto.
Defined.

(** X16 on a page without a "szoba" text. *)
Lemma missing_area_or_rooms_witness : ∃ e, extract page_no_rooms = Raise e.
Proof.
  apply missing_area_or_rooms. right.
  apply find_text_None. vm_compute. reflexivity.
Defined.

(** X17 on three anchors, two of which lead to the same listing. *)
Lemma page_urls_count_witness :
  ∃ urls, GetUrls.page_urls twice = Ok urls ∧ length urls ≤ 3 ∧ urls ≠ [].
Proof.
  assert (∃ urls, GetUrls.page_urls twice = Ok urls) as [urls Hurls]
    by (eexists; vm_compute; reflexivity).
  destruct (page_urls_count twice urls Hurls) as (Hle & Hne & _).
  exists urls. split; [done|]. split; [exact Hle|]. by apply Hne.
Defined.
